(** * PharmaSys: stock rollback, unit conversions, pagination and error handling

    A shallow embedding of the client-side logic of the PharmaSys front end:

    - [src/pages/purchases/purchase-list/index.tsx]: [deletePurchaseMutation]
      (stock rollback when a purchase is deleted);
    - [src/handlers/master-data-management/index.ts]: [useMasterDataManagement]
      (paginated fetch, debounced search, add/update/delete mutations);
    - [src/hooks/addItem.ts]: [useAddItemForm] ([fetchItemData], [handleSubmit],
      [calculateSellPriceFromMargin]).

    Quantities, stocks and prices are JavaScript numbers, that is IEEE 754
    binary64 values: they are embedded as Rocq's primitive [float], whose
    operations are the same correctly rounded binary64 operations.  Page
    numbers, page sizes and row counts are JavaScript numbers that hold
    integers; they are embedded as [Z].  Asynchronous calls to the hosted
    database are embedded in a state-and-exception monad over an explicit
    [World] (tables, the outcomes the backend will give, and the log of
    observable effects). *)

From Stdlib Require Import ZArith QArith Qround Floats String List Bool Lia.
From Stdlib Require DecimalString DecimalPos.
From stdpp Require Import gmap strings.
Import ListNotations.

Local Open Scope string_scope.

(** ** JavaScript numbers *)

Module JS.

Definition number := float.

(** [ToBoolean] on a number: [NaN], [+0] and [-0] are falsy. *)
Definition truthy (x : number) : bool := negb (is_nan x || is_zero x).

(** [x || 0] *)
Definition or_zero (x : number) : number := if truthy x then x else 0%float.

(** [v || 0] for a nullable number ([null] and [undefined] are falsy). *)
Definition nullable_or_zero (v : option number) : number :=
  match v with
  | Some x => or_zero x
  | None => 0%float
  end.

(** [Math.max(a, b)]: [NaN] if either is [NaN]; [+0] is larger than [-0]. *)
Definition Math_max (a b : number) : number :=
  if is_nan a || is_nan b then nan
  else if (a <? b)%float then b
  else if (b <? a)%float then a
  else if is_zero a && get_sign a then b else a.

(** The integer nearest to the finite value [(-1)^s * m * 2^e], ties going
    towards +infinity: floor (x + 1/2), computed exactly. *)
Definition round_half_up (s : bool) (m : positive) (e : Z) : Z :=
  ((cond_Zopp s (Z.pos m) * 2 + 2 ^ (- e)) / 2 ^ (1 - e))%Z.

(** [Math.round(x)] (ECMAScript 21.3.2.28): [x] itself when it is not finite
    or already integral; otherwise the nearest integer, ties towards
    +infinity; a result of zero keeps the sign of [x]. *)
Definition Math_round (x : number) : number :=
  match Prim2SF x with
  | S754_finite s m e =>
      if (0 <=? e)%Z then x
      else
        let n := round_half_up s m e in
        if (n =? 0)%Z then (if s then neg_zero else zero)
        else SF2Prim (binary_normalize prec emax n 0 false)
  | _ => x
  end.

(** [Math.ceil(a / b)] for integral [a] and [b <> 0], with the quotient
    taken exactly; below 2^53 the rounded binary64 quotient has the same
    ceiling. *)
Definition Math_ceil_div (a b : Z) : Z := Qceiling (inject_Z a / inject_Z b).

End JS.

(** ** Asynchronous backend calls

    Every call goes through the database client.  What the backend does with
    a call is not decided by the program: a [World] carries the list of
    [outcomes] the next calls will meet, together with a [store] (the tables
    or the component state a module works on) and the log of what the
    program did (requests sent, alerts, console errors, other user-interface
    effects). *)

Module Effects.

(** The [message] of a thrown or returned error. *)
Definition Error := string.

Inductive Outcome :=
| Served                (* executed; answers [{ data, error: null }] *)
| ServedEmpty           (* executed; answers [{ data: null, error: null }] *)
| Refused (e : Error)   (* not executed; answers [{ data: null, error }] *)
| Rejected (e : Error). (* not executed; the awaited promise rejects *)

(** A failed call: refused by the backend, or rejected on the way. *)
Definition failure (rejected : bool) (e : Error) : Outcome :=
  if rejected then Rejected e else Refused e.

Inductive Event (Req : Type) :=
| Call (r : Req)
| Alert (msg : string)
| ConsoleError (label : string)
| Ui (action : string).

Arguments Call {Req} r.
Arguments Alert {Req} msg.
Arguments ConsoleError {Req} label.
Arguments Ui {Req} action.

Record World (Req St : Type) := mkWorld {
  store : St;
  outcomes : list Outcome;
  log : list (Event Req) }.

Arguments mkWorld {Req St} store outcomes log.
Arguments store {Req St} w.
Arguments outcomes {Req St} w.
Arguments log {Req St} w.

Inductive Result (A : Type) :=
| Ok (a : A)
| Throw (e : Error).

Arguments Ok {A} a.
Arguments Throw {A} e.

Section Monad.

Context {Req St : Type}.

Definition M (A : Type) := World Req St -> Result A * World Req St.

Definition ret {A} (a : A) : M A := fun w => (Ok a, w).

Definition bind {A B} (c : M A) (k : A -> M B) : M B :=
  fun w =>
    match c w with
    | (Ok a, w') => k a w'
    | (Throw e, w') => (Throw e, w')
    end.

Definition throw {A} (e : Error) : M A := fun w => (Throw e, w).

(** [try { c } catch (e) { h e }] *)
Definition try_catch {A} (c : M A) (h : Error -> M A) : M A :=
  fun w =>
    match c w with
    | (Ok a, w') => (Ok a, w')
    | (Throw e, w') => h e w'
    end.

(** [try { c } finally { f }] *)
Definition finally {A} (c : M A) (f : M unit) : M A :=
  fun w =>
    match c w with
    | (r, w') =>
        match f w' with
        | (Ok _, w'') => (r, w'')
        | (Throw e, w'') => (Throw e, w'')
        end
    end.

Definition emit (ev : Event Req) : M unit :=
  fun w => (Ok tt, mkWorld (store w) (outcomes w) (log w ++ [ev])).

Definition get_store : M St := fun w => (Ok (store w), w).

Definition modify_store (f : St -> St) : M unit :=
  fun w => (Ok tt, mkWorld (f (store w)) (outcomes w) (log w)).

(** The outcome of the next call; a backend with nothing scheduled serves. *)
Definition next_outcome : M Outcome :=
  fun w =>
    match outcomes w with
    | [] => (Ok Served, w)
    | o :: rest => (Ok o, mkWorld (store w) rest (log w))
    end.

(** [await] of one request: it is logged, and a rejected promise throws. *)
Definition call (r : Req) : M Outcome :=
  bind (emit (Call r)) (fun _ =>
  bind next_outcome (fun o =>
  match o with
  | Rejected e => throw e
  | _ => ret o
  end)).

End Monad.

(** *** Mutations of the data-fetching library

    [useMutation({ mutationFn, onSuccess, onError })] of @tanstack/react-query,
    with the library's default of no retry for mutations: [mutateAsync] runs
    [mutationFn] once, then [onSuccess] or [onError], and rethrows the
    error; [mutate] is [mutateAsync] with the rejection swallowed. *)

Section Mutation.

Context {Req St : Type}.

Record MutationOptions (V : Type) := mkMutation {
  mutationFn : V -> @M Req St unit;
  onSuccess : @M Req St unit;
  onError : Error -> @M Req St unit }.

Arguments mutationFn {V} m v.
Arguments onSuccess {V} m.
Arguments onError {V} m e.

Definition mutateAsync {V} (m : MutationOptions V) (v : V) : @M Req St unit :=
  try_catch
    (bind (mutationFn m v) (fun _ => onSuccess m))
    (fun e => bind (onError m e) (fun _ => throw e)).

Definition mutate {V} (m : MutationOptions V) (v : V) : @M Req St unit :=
  try_catch (mutateAsync m v) (fun _ => ret tt).

End Mutation.

Arguments mkMutation {Req St V} mutationFn onSuccess onError.
Arguments mutationFn {Req St V} m v.
Arguments onSuccess {Req St V} m.
Arguments onError {Req St V} m e.

Declare Scope js_scope.
Delimit Scope js_scope with js.

Notation "x <- c ;; k" := (bind c (fun x => k))
  (at level 100, c at next level, right associativity) : js_scope.
Notation "c ;;; k" := (bind c (fun _ => k))
  (at level 100, right associativity) : js_scope.

(** Counting what the user and the backend saw. *)
Definition is_alert {Req} (ev : Event Req) : bool :=
  match ev with Alert _ => true | _ => false end.

Definition is_call {Req} (ev : Event Req) : bool :=
  match ev with Call _ => true | _ => false end.

Definition alerts {Req} (l : list (Event Req)) : nat := length (List.filter is_alert l).

Definition calls {Req} (l : list (Event Req)) : nat := length (List.filter is_call l).

End Effects.

(** Running a computation of [Effects.M] on a given world, step by step. *)
Ltac run :=
  unfold Effects.call;
  unfold Effects.bind, Effects.emit, Effects.next_outcome,
    Effects.ret, Effects.throw, Effects.get_store, Effects.modify_store,
    Effects.try_catch, Effects.finally;
  cbn [Effects.store Effects.outcomes Effects.log fst snd].

(** ** [src/pages/purchases/purchase-list/index.tsx] *)

Module PurchaseList.

Import JS Effects.

(** A row of [purchase_items]; the rollback selects [item_id, quantity, unit]
    of the rows of one purchase.  ([line_unit] is the column [unit].) *)
Record PurchaseItem := mkPurchaseItem {
  purchase_id : string;
  item_id : string;
  quantity : number;
  line_unit : string }.

(** An entry of [items.unit_conversions], as the [find] callback types it. *)
Record UnitConversion := mkUnitConversion {
  unit_name : string;
  conversion_rate : number }.

(** The columns [stock, base_unit, unit_conversions] of a row of [items];
    [stock] and [unit_conversions] may be [null]. *)
Record ItemData := mkItemData {
  stock : option number;
  base_unit : string;
  unit_conversions : option (list UnitConversion) }.

Record Purchase := mkPurchase {
  invoice_number : string;
  date : string;
  total : number;
  payment_status : string;
  payment_method : string;
  supplier : string }.

Record Tables := mkTables {
  items : gmap string ItemData;
  purchase_items : list PurchaseItem;
  purchases : gmap string Purchase }.

Inductive Request :=
| SelectPurchaseItems (id : string)
| SelectItem (id : string)
| UpdateItemStock (id : string) (newStock : number)
| DeletePurchase (id : string).

(** Lines 112-113: [from] and [to] of [fetchPurchases]. *)
Definition fetchPurchases_range (page limit : Z) : Z * Z :=
  let from := ((page - 1) * limit)%Z in
  let to := (from + limit - 1)%Z in
  (from, to).

(** Line 259. *)
Definition totalPages (totalItems itemsPerPage : Z) : Z :=
  Math_ceil_div totalItems itemsPerPage.

(** Lines 159-171: the quantity of a line in the item's base unit. *)
Definition quantityInBaseUnit (item : PurchaseItem) (itemData : ItemData) : number :=
  if negb (String.eqb (line_unit item) (base_unit itemData)) then
    match unit_conversions itemData with
    | Some ucs =>
        match find (fun uc => String.eqb (unit_name uc) (line_unit item)) ucs with
        | Some unitConversion =>
            (quantity item / conversion_rate unitConversion)%float
        | None => quantity item
        end
    | None => quantity item
    end
  else quantity item.

(** Lines 173-176. *)
Definition newStock (item : PurchaseItem) (itemData : ItemData) : number :=
  Math_max 0%float
    (nullable_or_zero (stock itemData) - quantityInBaseUnit item itemData)%float.

Definition set_stock (s : number) (d : ItemData) : ItemData :=
  mkItemData (Some s) (base_unit d) (unit_conversions d).

Local Open Scope js_scope.

Definition M := @Effects.M Request Tables.

(** [from("purchase_items").select(...).eq("purchase_id", id)]:
    the pair [{ data, error }]. *)
Definition select_purchase_items (id : string)
  : M (option (list PurchaseItem) * option Error) :=
  o <- call (SelectPurchaseItems id) ;;
  match o with
  | Served =>
      t <- get_store ;;
      ret (Some (List.filter (fun r => String.eqb (purchase_id r) id) (purchase_items t)),
           None)
  | Refused e => ret (None, Some e)
  | _ => ret (None, None)
  end.

(** [from("items").select(...).eq("id", id).single()]: only [data] is read. *)
Definition select_item (id : string) : M (option ItemData) :=
  o <- call (SelectItem id) ;;
  match o with
  | Served => t <- get_store ;; ret (items t !! id)
  | _ => ret None
  end.

(** [from("items").update({ stock }).eq("id", id)]: the answer is not read. *)
Definition update_item_stock (id : string) (s : number) : M unit :=
  o <- call (UpdateItemStock id s) ;;
  match o with
  | Served | ServedEmpty =>
      modify_store (fun t =>
        mkTables (alter (set_stock s) id (items t)) (purchase_items t) (purchases t))
  | _ => ret tt
  end.

(** [from("purchases").delete().eq("id", id)]: only [error] is read. *)
Definition delete_purchase (id : string) : M (option Error) :=
  o <- call (DeletePurchase id) ;;
  match o with
  | Served | ServedEmpty =>
      modify_store (fun t =>
        mkTables (items t) (purchase_items t) (delete id (purchases t))) ;;;
      ret None
  | Refused e => ret (Some e)
  | Rejected _ => ret None
  end.

(** The loop of lines 151-182. *)
Fixpoint rollback (lines : list PurchaseItem) : M unit :=
  match lines with
  | [] => ret tt
  | item :: rest =>
      itemData <- select_item (item_id item) ;;
      match itemData with
      | Some d => update_item_stock (item_id item) (newStock item d)
      | None => ret tt
      end ;;;
      rollback rest
  end.

(** Lines 143-187. *)
Definition deletePurchase (id : string) : M unit :=
  r <- select_purchase_items id ;;
  match snd r with
  | Some itemsError => throw itemsError
  | None =>
      rollback (match fst r with Some l => l | None => [] end) ;;;
      error <- delete_purchase id ;;
      match error with
      | Some e => throw e
      | None => ret tt
      end
  end.

(** Lines 142-195. *)
Definition deletePurchaseMutation : MutationOptions string :=
  mkMutation
    deletePurchase
    (emit (Ui "invalidateQueries(purchases)"))
    (fun error =>
       emit (ConsoleError "Error deleting purchase:") ;;;
       emit (Alert ("Gagal menghapus pembelian: " ++ error))).

(** The [onConfirm] of [handleDelete] (line 215). *)
Definition confirmDelete (id : string) : M unit :=
  mutate deletePurchaseMutation id.

End PurchaseList.

(** ** [src/handlers/master-data-management/index.ts] *)

Module MasterData.

Import JS Effects.

Record MasterDataItem := mkMasterDataItem {
  id : string;
  name : string;
  description : option string }.

(** *** Paginated fetch (lines 49-153 and 254)

    The backend evaluates the query; its operators are taken as given:
    [row_matches pattern] is the [or(...ilike...)] filter of a table,
    [order_by_name] its [order("name")], and [range] keeps the rows at
    offsets [from] to [to], both included.  The per-row completion of an
    [items] row (lines 93-130) is [completeItem]. *)

Section FetchData.

Context {Row : Type}.
Variable toLowerCase : string -> string.
Variable row_matches : string -> Row -> bool.
Variable order_by_name : list Row -> list Row.
Variable completeItem : Row -> Row.

Fixpoint join_chars (sep : string) (s : string) : string :=
  match s with
  | EmptyString => EmptyString
  | String c EmptyString => String c EmptyString
  | String c rest => String c (sep ++ join_chars sep rest)
  end.

(** [`%${searchTerm.toLowerCase().split('').join('%')}%`] *)
Definition fuzzySearchPattern (searchTerm : string) : string :=
  "%" ++ join_chars "%" (toLowerCase searchTerm) ++ "%".

Definition range (from to : Z) (rows : list Row) : list Row :=
  firstn (Z.to_nat (to - from + 1)) (skipn (Z.to_nat from) rows).

(** The rows a query with this search term matches. *)
Definition matching (searchTerm : string) (rows : list Row) : list Row :=
  if String.eqb searchTerm "" then rows
  else List.filter (row_matches (fuzzySearchPattern searchTerm)) rows.

(** [from] and [to] of lines 50, 53 and 133. *)
Definition window (page limit : Z) : Z * Z :=
  let from := ((page - 1) * limit)%Z in
  let to := (from + limit - 1)%Z in
  (from, to).

(** [fetchData] on a table holding [rows], when no call fails:
    [{ data, totalItems }]. *)
Definition fetchData (tableName : string) (rows : list Row)
    (page : Z) (searchTerm : string) (limit : Z) : list Row * Z :=
  let (from, to) := window page limit in
  let data := range from to (order_by_name (matching searchTerm rows)) in
  let count := Z.of_nat (length (matching searchTerm rows)) in
  if String.eqb tableName "items"
  then (map completeItem data, count)
  else (data, count).

End FetchData.

(** Line 254. *)
Definition totalPages (totalItems itemsPerPage : Z) : Z :=
  Math_ceil_div totalItems itemsPerPage.

(** *** The state of the hook (lines 21-28)

    [searchTimer] tells whether the 500 ms timer of the effect on [search]
    (lines 40-47) is pending; the effect runs on mount and after every change
    of [search], replacing the timer.  The state updates made by one
    callback are applied together, as React 18 batches them. *)

Record State := mkState {
  isAddModalOpen : bool;
  isEditModalOpen : bool;
  editingItem : option MasterDataItem;
  search : string;
  debouncedSearch : string;
  currentPage : Z;
  itemsPerPage : Z;
  searchTimer : bool }.

Definition initialState : State :=
  mkState false false None "" "" 1 10 true.

Definition setSearch (v : string) (s : State) : State :=
  if String.eqb v (search s) then s
  else mkState (isAddModalOpen s) (isEditModalOpen s) (editingItem s)
         v (debouncedSearch s) (currentPage s) (itemsPerPage s) true.

(** The timer callback of lines 41-44. *)
Definition debounceElapsed (s : State) : State :=
  if searchTimer s
  then mkState (isAddModalOpen s) (isEditModalOpen s) (editingItem s)
         (search s) (search s) 1 (itemsPerPage s) false
  else s.

(** The timer callback of lines 33-35. *)
Definition editTimerElapsed (s : State) : State :=
  if negb (isEditModalOpen s) && (match editingItem s with Some _ => true | None => false end)
  then mkState (isAddModalOpen s) (isEditModalOpen s) None
         (search s) (debouncedSearch s) (currentPage s) (itemsPerPage s) (searchTimer s)
  else s.

Definition setIsAddModalOpen (b : bool) (s : State) : State :=
  mkState b (isEditModalOpen s) (editingItem s)
    (search s) (debouncedSearch s) (currentPage s) (itemsPerPage s) (searchTimer s).

Definition setIsEditModalOpen (b : bool) (s : State) : State :=
  mkState (isAddModalOpen s) b (editingItem s)
    (search s) (debouncedSearch s) (currentPage s) (itemsPerPage s) (searchTimer s).

Definition setEditingItem (i : option MasterDataItem) (s : State) : State :=
  mkState (isAddModalOpen s) (isEditModalOpen s) i
    (search s) (debouncedSearch s) (currentPage s) (itemsPerPage s) (searchTimer s).

(** Lines 228-231. *)
Definition handleEdit (item : MasterDataItem) (s : State) : State :=
  setIsEditModalOpen true (setEditingItem (Some item) s).

(** Line 246. *)
Definition handlePageChange (newPage : Z) (s : State) : State :=
  mkState (isAddModalOpen s) (isEditModalOpen s) (editingItem s)
    (search s) (debouncedSearch s) newPage (itemsPerPage s) (searchTimer s).

(** Lines 247-252; [value] is [Number(e.target.value)]. *)
Definition handleItemsPerPageChange (value : Z) (s : State) : State :=
  mkState (isAddModalOpen s) (isEditModalOpen s) (editingItem s)
    (search s) (debouncedSearch s) 1 value (searchTimer s).

(** What can happen to the hook: its handlers and its timers. *)
Inductive Action :=
| SetSearch (v : string)
| DebounceElapsed
| EditTimerElapsed
| SetIsAddModalOpen (b : bool)
| SetIsEditModalOpen (b : bool)
| HandleEdit (item : MasterDataItem)
| HandlePageChange (newPage : Z)
| HandleItemsPerPageChange (value : Z).

Definition step (s : State) (a : Action) : State :=
  match a with
  | SetSearch v => setSearch v s
  | DebounceElapsed => debounceElapsed s
  | EditTimerElapsed => editTimerElapsed s
  | SetIsAddModalOpen b => setIsAddModalOpen b s
  | SetIsEditModalOpen b => setIsEditModalOpen b s
  | HandleEdit item => handleEdit item s
  | HandlePageChange p => handlePageChange p s
  | HandleItemsPerPageChange v => handleItemsPerPageChange v s
  end.

(** The key of the query (line 162) without the table name. *)
Definition queryKey (s : State) : Z * string * Z :=
  (currentPage s, debouncedSearch s, itemsPerPage s).

(** *** Mutations (lines 173-244) *)

(** The argument of [handleModalSubmit]; [modal_id] is absent when adding. *)
Record ModalData := mkModalData {
  modal_id : option string;
  modal_name : string;
  modal_description : option string }.

Inductive Request :=
| Insert (table : string) (newItem : ModalData)
| Update (table : string) (id : string) (name : string) (description : option string)
| Delete (table : string) (id : string).

Definition M := @Effects.M Request State.

Local Open Scope js_scope.

Section Hook.

Variable tableName : string.
Variable entityNameLabel : string.

(** [const { error } = await ...; if (error) throw error;] *)
Definition throw_if_error (o : Outcome) : M unit :=
  match o with
  | Refused e => throw e
  | _ => ret tt
  end.

Definition addMutation : MutationOptions ModalData :=
  mkMutation
    (fun newItem => o <- call (Insert tableName newItem) ;; throw_if_error o)
    (emit (Ui "invalidateQueries") ;;;
     modify_store (setIsAddModalOpen false))
    (fun error =>
       emit (Alert ("Gagal menambahkan " ++ entityNameLabel ++ ": " ++ error))).

Definition updateMutation : MutationOptions (string * ModalData) :=
  mkMutation
    (fun updatedItem =>
       o <- call (Update tableName (fst updatedItem)
                    (modal_name (snd updatedItem))
                    (modal_description (snd updatedItem))) ;;
       throw_if_error o)
    (emit (Ui "invalidateQueries") ;;;
     modify_store (setIsEditModalOpen false) ;;;
     modify_store (setEditingItem None))
    (fun error =>
       emit (Alert ("Gagal memperbarui " ++ entityNameLabel ++ ": " ++ error))).

Definition deleteMutation : MutationOptions string :=
  mkMutation
    (fun itemId => o <- call (Delete tableName itemId) ;; throw_if_error o)
    (emit (Ui "invalidateQueries") ;;;
     modify_store (setIsEditModalOpen false) ;;;
     modify_store (setEditingItem None))
    (fun error =>
       emit (Alert ("Gagal menghapus " ++ entityNameLabel ++ ": " ++ error))).

(** Lines 233-244; an empty [id] is falsy. *)
Definition handleModalSubmit (itemData : ModalData) : M unit :=
  match modal_id itemData with
  | Some i =>
      if String.eqb i "" then mutateAsync addMutation itemData
      else mutateAsync updateMutation (i, itemData)
  | None => mutateAsync addMutation itemData
  end.

End Hook.

End MasterData.

(** ** [src/hooks/addItem.ts] *)

Module AddItem.

Import JS Effects.

Module UnitData.
Record t := mk { id : string; name : string }.
End UnitData.

Module FormData.
Record t := mk {
  code : string;
  name : string;
  type_id : string;
  category_id : string;
  unit_id : string;
  rack : string;
  barcode : string;
  description : string;
  base_price : number;
  sell_price : number;
  min_stock : number;
  is_active : bool;
  is_medicine : bool;
  has_expiry_date : bool;
  updated_at : option string }.
End FormData.

(** An entry of the stored [unit_conversions] array, as [fetchItemData]
    reads it.  A numeric field is [None] when the entry has no number there
    (the load tests [typeof conv.conversion_rate === "number"] and writes
    [conv.base_price || 0]); an absent string is the empty string, which is
    as falsy. *)
Module DBUnitConversion.
Record t := mk {
  id : option string;
  unit_name : string;
  to_unit_id : string;
  conversion_rate : option number;
  base_price : option number;
  sell_price : option number }.
End DBUnitConversion.

(** The argument of [addUnitConversion]: a [UnitConversion] without [id]. *)
Module NewConversion.
Record t := mk {
  to_unit_id : string;
  unit_name : string;
  unit : UnitData.t;
  conversion : number;
  basePrice : number;
  sellPrice : number;
  conversion_rate : number }.
End NewConversion.

Module UnitConversion.
Record t := mk { id : string; fields : NewConversion.t }.
End UnitConversion.

(** An entry of the [unit_conversions] array that [handleSubmit] writes. *)
Module SavedConversion.
Record t := mk {
  unit_name : string;
  to_unit_id : string;
  conversion_rate : number;
  base_price : number;
  sell_price : number }.
End SavedConversion.

(** [itemUpdateData] and [mainItemData]; [stock] is [None] when the object
    has no such key. *)
Module ItemPayload.
Record t := mk {
  name : string;
  category_id : string;
  type_id : string;
  unit_id : string;
  base_price : number;
  sell_price : number;
  stock : option number;
  min_stock : number;
  description : option string;
  is_active : bool;
  rack : option string;
  barcode : option string;
  code : string;
  is_medicine : bool;
  base_unit : string;
  has_expiry_date : bool;
  unit_conversions : list SavedConversion.t }.
End ItemPayload.

(** *** The unit-conversion hook

    [useUnitConversion] is imported from [@/hooks/unitConversion]; the two
    operations that [fetchItemData] calls on its list of conversions are
    taken as an interface, each as the change it makes to that list. *)
Record UnitConversionHook := mkHook {
  addUnitConversion :
    NewConversion.t -> list UnitConversion.t -> list UnitConversion.t;
  removeUnitConversion :
    string -> list UnitConversion.t -> list UnitConversion.t }.

(** What is assumed of a hook: adding appends the entry under some id, and
    removing drops the entries of that id. *)
Definition hook_appends (h : UnitConversionHook) : Prop :=
  forall c l, exists i, addUnitConversion h c l = (l ++ [UnitConversion.mk i c])%list.

Definition hook_removes (h : UnitConversionHook) : Prop :=
  forall i l,
    removeUnitConversion h i l =
    List.filter (fun uc => negb (String.eqb (UnitConversion.id uc) i)) l.

(** An instance of the interface, for examples: the id of an entry is the id
    of its unit. *)
Definition list_hook : UnitConversionHook :=
  mkHook
    (fun c l => (l ++ [UnitConversion.mk (NewConversion.to_unit_id c) c])%list)
    (fun i l => List.filter (fun uc => negb (String.eqb (UnitConversion.id uc) i)) l).

(** *** [fetchItemData], lines 470-522: filling the hook on load

    (Lines 422-463 build [initialUnitConversions], which only [isDirty] and
    [resetForm] read.) *)

(** [s || d] on strings. *)
Definition string_or (s d : string) : string :=
  if String.eqb s "" then d else s.

(** Lines 488-520: what one stored entry adds, if anything.  [tempId] is the
    [`temp_id_${Date.now()}_${Math.random()...}`] made for this entry. *)
Definition loadedConversion (units : list UnitData.t) (tempId : string)
    (conv : DBUnitConversion.t) : option NewConversion.t :=
  match DBUnitConversion.conversion_rate conv with
  | None => None
  | Some rate =>
      match find (fun u => String.eqb (UnitData.name u) (DBUnitConversion.unit_name conv)) units with
      | Some unitDetail =>
          Some (NewConversion.mk
                  (UnitData.id unitDetail)
                  (UnitData.name unitDetail)
                  (UnitData.mk (UnitData.id unitDetail) (UnitData.name unitDetail))
                  (or_zero rate)
                  (nullable_or_zero (DBUnitConversion.base_price conv))
                  (nullable_or_zero (DBUnitConversion.sell_price conv))
                  (or_zero rate))
      | None =>
          let placeholderUnit :=
            UnitData.mk
              (string_or (DBUnitConversion.to_unit_id conv) tempId)
              (string_or (DBUnitConversion.unit_name conv) "Unknown Unit") in
          Some (NewConversion.mk
                  (UnitData.id placeholderUnit)
                  (UnitData.name placeholderUnit)
                  placeholderUnit
                  (or_zero rate)
                  (nullable_or_zero (DBUnitConversion.base_price conv))
                  (nullable_or_zero (DBUnitConversion.sell_price conv))
                  (or_zero rate))
      end
  end.

Definition temp_id (entropy : string) : string := "temp_id_" ++ entropy.




(** *** [handleSubmit], lines 655-752 *)

(** Lines 676-682 and 707-713. *)
Definition savedConversion (uc : UnitConversion.t) : SavedConversion.t :=
  let f := UnitConversion.fields uc in
  SavedConversion.mk
    (UnitData.name (NewConversion.unit f))
    (NewConversion.to_unit_id f)
    (NewConversion.conversion_rate f)
    (NewConversion.basePrice f)
    (NewConversion.sellPrice f).

(** [s || null] *)
Definition string_or_null (s : string) : option string :=
  if String.eqb s "" then None else Some s.

Definition itemPayload (stock : option number) (formData : FormData.t)
    (baseUnit : string) (conversions : list UnitConversion.t) : ItemPayload.t :=
  ItemPayload.mk
    (FormData.name formData)
    (FormData.category_id formData)
    (FormData.type_id formData)
    (FormData.unit_id formData)
    (FormData.base_price formData)
    (FormData.sell_price formData)
    stock
    (FormData.min_stock formData)
    (string_or_null (FormData.description formData))
    (FormData.is_active formData)
    (string_or_null (FormData.rack formData))
    (string_or_null (FormData.barcode formData))
    (FormData.code formData)
    (FormData.is_medicine formData)
    baseUnit
    (FormData.has_expiry_date formData)
    (map savedConversion conversions).

(** Lines 660-683. *)
Definition itemUpdateData := itemPayload None.

(** Lines 690-714. *)
Definition mainItemData := itemPayload (Some 0%float).

Inductive Request :=
| UpdateItem (itemId : option string) (data : ItemPayload.t)
| InsertItem (data : ItemPayload.t).

Definition M := @Effects.M Request unit.

Local Open Scope js_scope.

Section Form.

(** The props and state [handleSubmit] reads. *)
Variable itemId : option string.
Variable refetchItems : bool.
Variable isEditMode : bool.
Variable formData : FormData.t.
Variable baseUnit : string.
Variable conversions : list UnitConversion.t.

(** Lines 659-723: the body of the [try]. *)
Definition submitItem : M unit :=
  (if isEditMode then
     o <- call (UpdateItem itemId (itemUpdateData formData baseUnit conversions)) ;;
     match o with
     | Refused updateError => throw updateError
     | _ => ret tt
     end
   else
     o <- call (InsertItem (mainItemData formData baseUnit conversions)) ;;
     match o with
     | Refused mainError => throw mainError
     | ServedEmpty => throw "Gagal mendapatkan ID item baru setelah insert."
     | _ => ret tt
     end) ;;;
  emit (Ui "invalidateQueries(items)") ;;;
  emit (Ui "setTimeout(refetchQueries(items), 100)") ;;;
  (if refetchItems then emit (Ui "setTimeout(refetchItems, 150)") else ret tt) ;;;
  emit (Ui "sessionStorage.removeItem(addItemFormCache)") ;;;
  emit (Ui "onClose()").

Definition handleSubmit : M unit :=
  emit (Ui "preventDefault()") ;;;
  emit (Ui "setSaving(true)") ;;;
  finally
    (try_catch submitItem
       (fun error =>
          emit (ConsoleError "Error saving item:") ;;;
          emit (Alert "Gagal menyimpan data item. Silakan coba lagi.")))
    (emit (Ui "setSaving(false)")).

(** Lines 828-834. *)
Definition calculateSellPriceFromMargin (margin : number) : number :=
  if (0 <? FormData.base_price formData)%float then
    let sellPrice :=
      (FormData.base_price formData * (1 + margin / 100))%float in
    Math_round sellPrice
  else 0%float.

End Form.

End AddItem.

(** ** Shapes of binary64 values *)

Module Binary64.



End Binary64.

(** ** The round trip of [unit_conversions], entry by entry *)

Module RoundTrip.

Import JS AddItem.


(** The written entry [s] has the five field values of the stored entry [r]. *)
Definition preserved (r : DBUnitConversion.t) (s : SavedConversion.t) : Prop :=
  SavedConversion.unit_name s = DBUnitConversion.unit_name r /\
  SavedConversion.to_unit_id s = DBUnitConversion.to_unit_id r /\
  Some (SavedConversion.conversion_rate s) = DBUnitConversion.conversion_rate r /\
  Some (SavedConversion.base_price s) = DBUnitConversion.base_price r /\
  Some (SavedConversion.sell_price s) = DBUnitConversion.sell_price r.



(** The unit of the form's list that carries the entry's unit name. *)
Definition listed_unit (units : list UnitData.t) (r : DBUnitConversion.t)
  : option UnitData.t :=
  find (fun u => String.eqb (UnitData.name u) (DBUnitConversion.unit_name r)) units.

(** The written entry [s] keeps the name and the three numbers of [r]; its
    unit id is the id of the listed unit of that name, or else the stored
    id, or else, the stored id being empty, a generated temporary id. *)
Definition written_back (units : list UnitData.t)
    (r : DBUnitConversion.t) (s : SavedConversion.t) : Prop :=
  SavedConversion.unit_name s = DBUnitConversion.unit_name r /\
  Some (SavedConversion.conversion_rate s) = DBUnitConversion.conversion_rate r /\
  Some (SavedConversion.base_price s) = DBUnitConversion.base_price r /\
  Some (SavedConversion.sell_price s) = DBUnitConversion.sell_price r /\
  match listed_unit units r with
  | Some u => SavedConversion.to_unit_id s = UnitData.id u
  | None =>
      if String.eqb (DBUnitConversion.to_unit_id r) ""
      then exists entropy, SavedConversion.to_unit_id s = temp_id entropy
      else SavedConversion.to_unit_id s = DBUnitConversion.to_unit_id r
  end.

End RoundTrip.

(** ** Sample data *)

Module Samples.

Import JS Effects.

(** Ten boxes of an item kept in strips, with the rate 2 stored for "Box". *)
Definition box_line : PurchaseList.PurchaseItem :=
  PurchaseList.mkPurchaseItem "p1" "A" 10%float "Box".

Definition strip_item : PurchaseList.ItemData :=
  PurchaseList.mkItemData (Some 100%float) "Strip"
    (Some [PurchaseList.mkUnitConversion "Box" 2%float]).

(** Three strips of an item kept in strips, without conversions. *)
Definition strip_line : PurchaseList.PurchaseItem :=
  PurchaseList.mkPurchaseItem "p1" "B" 3%float "Strip".

Definition plain_item : PurchaseList.ItemData :=
  PurchaseList.mkItemData (Some 7%float) "Strip" None.

(** A line in a unit the item has no conversion for. *)
Definition tablet_line : PurchaseList.PurchaseItem :=
  PurchaseList.mkPurchaseItem "p1" "A" 4%float "Tablet".

Definition two_line_tables : PurchaseList.Tables :=
  PurchaseList.mkTables
    (<["A" := strip_item]> (<["B" := plain_item]> ∅))
    [box_line; strip_line]
    (<["p1" := PurchaseList.mkPurchase "INV-001" "2025-06-28" 250%float "paid"
               "cash" "PT Kimia Farma"]> ∅).


Definition new_category : MasterData.ModalData :=
  MasterData.mkModalData None "Antibiotik" (Some "Obat antibiotik").

Definition refusing_insert : World MasterData.Request MasterData.State :=
  mkWorld MasterData.initialState [Refused "duplicate key value"] [].






Definition paracetamol : AddItem.FormData.t :=
  AddItem.FormData.mk "BSAN01" "Paracetamol" "t1" "c1" "u-strip" "" "" ""
    100%float 120%float 10%float true true false None.

End Samples.

(** ** JavaScript strings and integers in strings

    A [string] stands for a JavaScript string whose characters are single
    code units, one [ascii] each. *)

Module Str.

Import Stdlib.Strings.Ascii.

(** [s.substring(n)] and [s.slice(n)], for [n >= 0]. *)
Fixpoint drop (n : nat) (s : string) : string :=
  match n, s with
  | O, _ => s
  | S n', String _ rest => drop n' rest
  | S _, EmptyString => EmptyString
  end.

(** [s.substring(0, n)] *)
Fixpoint take (n : nat) (s : string) : string :=
  match n, s with
  | S n', String c rest => String c (take n' rest)
  | _, _ => EmptyString
  end.

(** [s.charAt(0)] *)
Definition charAt0 (s : string) : string := take 1 s.

(** [s.startsWith(p)] *)
Definition startsWith (s p : string) : bool := String.prefix p s.

(** [s.includes(p)] *)
Fixpoint includes (s p : string) : bool :=
  startsWith s p ||
  match s with
  | String _ rest => includes rest p
  | EmptyString => false
  end.

Fixpoint zeros (n : nat) : string :=
  match n with
  | O => EmptyString
  | S n' => String "0"%char (zeros n')
  end.

(** [s.padStart(n, "0")] *)
Definition padStart0 (n : nat) (s : string) : string :=
  zeros (n - String.length s) ++ s.

(** [n.toString()] for an integer [n], written without exponent (so below
    10^21 in absolute value). *)
Definition decimal (n : Z) : string :=
  DecimalString.NilZero.string_of_int (Z.to_int n).

(** White space that [parseInt] skips, among single code units. *)
Definition is_space (c : ascii) : bool :=
  let n := nat_of_ascii c in
  (Nat.leb 9 n && Nat.leb n 13) || Nat.eqb n 32 || Nat.eqb n 160.

Fixpoint skip_spaces (s : string) : string :=
  match s with
  | String c rest => if is_space c then skip_spaces rest else s
  | EmptyString => EmptyString
  end.

Definition is_digit (c : ascii) : bool :=
  let n := nat_of_ascii c in Nat.leb 48 n && Nat.leb n 57.

(** The value of a hexadecimal digit. *)
Definition hex_value (c : ascii) : option Z :=
  let n := nat_of_ascii c in
  if Nat.leb 48 n && Nat.leb n 57 then Some (Z.of_nat (n - 48))
  else if Nat.leb 97 n && Nat.leb n 102 then Some (Z.of_nat (n - 87))
  else if Nat.leb 65 n && Nat.leb n 70 then Some (Z.of_nat (n - 55))
  else None.

(** The longest prefix made of decimal digits. *)
Fixpoint digits_prefix (s : string) : string :=
  match s with
  | String c rest => if is_digit c then String c (digits_prefix rest) else EmptyString
  | EmptyString => EmptyString
  end.

(** The value of the longest prefix of hexadecimal digits, if it has one. *)
Fixpoint hex_prefix (acc : option Z) (s : string) : option Z :=
  match s with
  | String c rest =>
      match hex_value c with
      | Some v =>
          hex_prefix (Some (match acc with Some a => a * 16 + v | None => v end)%Z) rest
      | None => acc
      end
  | EmptyString => acc
  end.

(** [parseInt(s)] (ECMAScript 19.2.5), with [None] for [NaN]: leading white
    space, a sign, ["0x"] for radix 16, then the longest prefix of digits.
    The result is the integer those digits denote; JavaScript holds it
    exactly below 2^53. *)
Definition parseInt (s : string) : option Z :=
  let s := skip_spaces s in
  let signed :=
    match s with
    | String "-"%char rest => (true, rest)
    | String "+"%char rest => (false, rest)
    | _ => (false, s)
    end in
  let magnitude :=
    match snd signed with
    | String "0"%char (String "x"%char rest)
    | String "0"%char (String "X"%char rest) =>
        hex_prefix None rest
    | digits =>
        match DecimalString.NilZero.uint_of_string (digits_prefix digits) with
        | Some d => Some (Z.of_uint d)
        | None => None
        end
    end in
  match magnitude with
  | Some m => Some (if fst signed then - m else m)%Z
  | None => None
  end.

(** [t] read in order, not necessarily side by side, in [s]. *)
Fixpoint subsequence (t s : string) : bool :=
  match t, s with
  | EmptyString, _ => true
  | String _ _, EmptyString => false
  | String c t', String d s' =>
      if Ascii.eqb c d then subsequence t' s' else subsequence t s'
  end.

(** The characters with a meaning of their own in a [LIKE] pattern (["*"]
    is sent as ["%"]). *)
Definition is_wildcard (c : ascii) : bool :=
  Ascii.eqb c "%"%char || Ascii.eqb c "_"%char || Ascii.eqb c "\"%char
  || Ascii.eqb c "*"%char.

Fixpoint plain (s : string) : bool :=
  match s with
  | String c rest => negb (is_wildcard c) && plain rest
  | EmptyString => true
  end.

(** SQL's [s LIKE p], as PostgreSQL evaluates it: ["%"] stands for any run
    of characters, ["_"] for any one character, and a backslash takes the next
    character literally (a pattern ending in a backslash is an error, here a
    mismatch).  The [ilike] of the queries is [LIKE] on the text and the
    pattern with their case folded. *)
Fixpoint like (p : string) : string -> bool :=
  match p with
  | EmptyString =>
      fun s => match s with EmptyString => true | String _ _ => false end
  | String c p' =>
      if Ascii.eqb c "%"%char then
        fix any (s : string) : bool :=
          like p' s ||
          match s with
          | String _ s' => any s'
          | EmptyString => false
          end
      else if Ascii.eqb c "_"%char then
        fun s => match s with String _ s' => like p' s' | EmptyString => false end
      else if Ascii.eqb c "\"%char then
        match p' with
        | String e p'' =>
            fun s =>
              match s with
              | String d s' => Ascii.eqb e d && like p'' s'
              | EmptyString => false
              end
        | EmptyString => fun _ => false
        end
      else
        fun s =>
          match s with
          | String d s' => Ascii.eqb c d && like p' s'
          | EmptyString => false
          end
  end.

(** ["%"], then each character of [t] followed by ["%"]. *)
Fixpoint spread (t : string) : string :=
  match t with
  | EmptyString => "%"
  | String c t' => String "%"%char (String c (spread t'))
  end.

End Str.

(** ** [src/hooks/addItem.ts]: item codes, the loaded form, profit *)

Module ItemForm.

Import JS AddItem Str.

(** What JSON keeps of a number sent to the backend: [NaN] and the
    infinities become [null], [-0] becomes [0]. *)
Definition json_number (x : number) : option number :=
  if is_nan x || is_infinity x then None
  else if is_zero x then Some 0%float
  else Some x.

Section Codes.

Variable toLowerCase : string -> string.
Variable toUpperCase : string -> string.

(** Lines 24-40.  Of a type, a unit or a category only [id] and [name] are
    read. *)
Definition generateTypeCode (typeId : string) (types : list UnitData.t) : string :=
  match find (fun type => String.eqb (UnitData.id type) typeId) types with
  | None => "X"
  | Some selectedType =>
      let typeName := toLowerCase (UnitData.name selectedType) in
      if includes typeName "bebas" && negb (includes typeName "terbatas") then "B"
      else if includes typeName "bebas terbatas" then "T"
      else if includes typeName "keras" then "K"
      else if includes typeName "narkotika" then "N"
      else if includes typeName "fitofarmaka" then "F"
      else if includes typeName "herbal" then "H"
      else toUpperCase (charAt0 (UnitData.name selectedType))
  end.

(** Lines 42-47. *)
Definition generateUnitCode (unitId : string) (units : list UnitData.t) : string :=
  match find (fun unit => String.eqb (UnitData.id unit) unitId) units with
  | None => "X"
  | Some selectedUnit => toUpperCase (charAt0 (UnitData.name selectedUnit))
  end.

(** Lines 49-75. *)
Definition generateCategoryCode (categoryId : string)
    (categories : list UnitData.t) : string :=
  match find (fun category => String.eqb (UnitData.id category) categoryId) categories with
  | None => "XX"
  | Some selectedCategory =>
      let name := UnitData.name selectedCategory in
      if startsWith (toLowerCase name) "anti" then
        let baseName := drop 4 name in
        if Nat.ltb 0 (String.length baseName)
        then "A" ++ toUpperCase (charAt0 baseName)
        else "A"
      else if Nat.leb 2 (String.length name) then toUpperCase (take 2 name)
      else if Nat.eqb (String.length name) 1 then toUpperCase name ++ "X"
      else "XX"
  end.

(** Line 319. *)
Definition codePrefix (formData : FormData.t)
    (types units categories : list UnitData.t) : string :=
  generateTypeCode (FormData.type_id formData) types
  ++ generateUnitCode (FormData.unit_id formData) units
  ++ generateCategoryCode (FormData.category_id formData) categories.

End Codes.

(** Lines 326-335 of [generateItemCode]: the code made from the prefix and
    from [data], the codes the backend found with that prefix, highest
    first ([None] for [null]).  The sequence number is an integer. *)
Definition generatedCode (codePrefix : string) (data : option (list string)) : string :=
  let sequence :=
    match data with
    | Some (code :: _) =>
        let lastSequenceStr := drop (String.length codePrefix) code in
        match parseInt lastSequenceStr with
        | Some lastSequence => (lastSequence + 1)%Z
        | None => 1%Z
        end
    | _ => 1%Z
    end in
  let sequenceStr := padStart0 2 (decimal sequence) in
  codePrefix ++ sequenceStr.

(** Lines 139-149; an absent argument is [None]. *)
Definition calculateProfitPercentage (formData : FormData.t)
    (base_price sell_price : option number) : option number :=
  let currentBasePrice :=
    match base_price with Some b => b | None => FormData.base_price formData end in
  let currentSellPrice :=
    match sell_price with Some s => s | None => FormData.sell_price formData end in
  if (0 <? currentBasePrice)%float && (0 <=? currentSellPrice)%float
  then Some (((currentSellPrice - currentBasePrice) / currentBasePrice) * 100)%float
  else None.

(** The columns of a row of [items] that [fetchItemData] puts in the form
    (lines 398-418).  A [null] column is [None]; for the three flags, which
    the code tests against [undefined], [None] is an absent column. *)
Module ItemRow.
Record t := mk {
  code : option string;
  name : option string;
  type_id : option string;
  category_id : option string;
  unit_id : option string;
  rack : option string;
  barcode : option string;
  description : option string;
  base_price : option number;
  sell_price : option number;
  min_stock : option number;
  is_active : option bool;
  is_medicine : option bool;
  has_expiry_date : option bool;
  updated_at : option string }.
End ItemRow.

(** [v || ""] for a nullable string. *)
Definition nullable_or_empty (v : option string) : string :=
  match v with Some s => s | None => "" end.

(** [v || 10] for a nullable number. *)
Definition nullable_or_ten (v : option number) : number :=
  match v with
  | Some x => if truthy x then x else 10%float
  | None => 10%float
  end.

(** [v !== undefined ? v : d] *)
Definition defined_or (d : bool) (v : option bool) : bool :=
  match v with Some b => b | None => d end.

(** Lines 398-418. *)
Definition fetchedFormData (itemData : ItemRow.t) : FormData.t :=
  FormData.mk
    (nullable_or_empty (ItemRow.code itemData))
    (nullable_or_empty (ItemRow.name itemData))
    (nullable_or_empty (ItemRow.type_id itemData))
    (nullable_or_empty (ItemRow.category_id itemData))
    (nullable_or_empty (ItemRow.unit_id itemData))
    (nullable_or_empty (ItemRow.rack itemData))
    (nullable_or_empty (ItemRow.barcode itemData))
    (nullable_or_empty (ItemRow.description itemData))
    (nullable_or_zero (ItemRow.base_price itemData))
    (nullable_or_zero (ItemRow.sell_price itemData))
    (nullable_or_ten (ItemRow.min_stock itemData))
    (defined_or true (ItemRow.is_active itemData))
    (defined_or true (ItemRow.is_medicine itemData))
    (defined_or false (ItemRow.has_expiry_date itemData))
    (ItemRow.updated_at itemData).

(** The same columns of the row once the backend has stored the object that
    [handleSubmit] sent, with [updated_at] as the backend set it. *)
Definition stored_row (data : ItemPayload.t) (updated_at : option string) : ItemRow.t :=
  ItemRow.mk
    (Some (ItemPayload.code data))
    (Some (ItemPayload.name data))
    (Some (ItemPayload.type_id data))
    (Some (ItemPayload.category_id data))
    (Some (ItemPayload.unit_id data))
    (ItemPayload.rack data)
    (ItemPayload.barcode data)
    (ItemPayload.description data)
    (json_number (ItemPayload.base_price data))
    (json_number (ItemPayload.sell_price data))
    (json_number (ItemPayload.min_stock data))
    (Some (ItemPayload.is_active data))
    (Some (ItemPayload.is_medicine data))
    (Some (ItemPayload.has_expiry_date data))
    updated_at.

(** The form with the time stamp of a row. *)
Definition stamped (updated_at : option string) (formData : FormData.t) : FormData.t :=
  FormData.mk
    (FormData.code formData) (FormData.name formData) (FormData.type_id formData)
    (FormData.category_id formData) (FormData.unit_id formData)
    (FormData.rack formData) (FormData.barcode formData)
    (FormData.description formData) (FormData.base_price formData)
    (FormData.sell_price formData) (FormData.min_stock formData)
    (FormData.is_active formData) (FormData.is_medicine formData)
    (FormData.has_expiry_date formData) updated_at.

(** A finite number other than zero. *)
Definition finite_nonzero (x : number) : bool :=
  match Prim2SF x with
  | S754_finite _ _ _ => true
  | _ => false
  end.

(** A finite number other than [-0]. *)
Definition storable (x : number) : bool :=
  match Prim2SF x with
  | S754_finite _ _ _ | S754_zero false => true
  | _ => false
  end.

End ItemForm.

(** ** [src/hooks/addItem.ts]: adding a category, a type or a unit from the form

    [handleSaveCategory], [handleSaveType] and [handleSaveUnit] (lines
    754-812) with their mutations (lines 581-635) are the same function on
    three tables; [Kind] tells which. *)

Module NewEntity.

Import Effects.

Inductive Kind := Category | MedicineType | Unit.

Definition Kind_eqb (a b : Kind) : bool :=
  match a, b with
  | Category, Category | MedicineType, MedicineType | Unit, Unit => true
  | _, _ => false
  end.

Definition table_name (k : Kind) : string :=
  match k with
  | Category => "item_categories"
  | MedicineType => "item_types"
  | Unit => "item_units"
  end.

Definition query_key (k : Kind) : string :=
  match k with
  | Category => "categories"
  | MedicineType => "types"
  | Unit => "units"
  end.

Definition console_label (k : Kind) : string :=
  match k with
  | Category => "Error adding category:"
  | MedicineType => "Error adding type:"
  | Unit => "Error adding unit:"
  end.

Definition alert_message (k : Kind) : string :=
  match k with
  | Category => "Gagal menyimpan kategori baru."
  | MedicineType => "Gagal menyimpan jenis item baru."
  | Unit => "Gagal menyimpan satuan baru."
  end.

Record Row := mkRow {
  id : string;
  name : string;
  description : string;
  updated_at : string }.

(** The three tables, and what the form holds of each kind: its list, the
    id selected in the form data, whether its modal is open; and the search
    term handed to the modal. *)
Record Store := mkStore {
  table : Kind -> list Row;
  listed : Kind -> list Row;
  selected : Kind -> string;
  modalOpen : Kind -> bool;
  currentSearchTermForModal : option string }.

Definition set_at {A} (k : Kind) (v : A) (f : Kind -> A) : Kind -> A :=
  fun k' => if Kind_eqb k k' then v else f k'.

Inductive Request :=
| Insert (k : Kind) (name description : string)
| SelectAll (k : Kind).

Definition M := @Effects.M Request Store.

Local Open Scope js_scope.

Section Form.

(** The row the backend makes of a new entry (its id and time stamp), and
    its [order("name")]. *)
Variable inserted : Kind -> list Row -> string -> string -> Row.
Variable order_by_name : list Row -> list Row.

(** [mutationFn] of lines 582-590: [insert(...).select(...).single()],
    [if (error) throw error; return data]. *)
Definition insert_entity (k : Kind) (data : string * string) : M (option Row) :=
  o <- call (Insert k (fst data) (snd data)) ;;
  match o with
  | Served | ServedEmpty =>
      s <- get_store ;;
      let row := inserted k (table s k) (fst data) (snd data) in
      modify_store (fun s =>
        mkStore (set_at k (table s k ++ [row])%list (table s)) (listed s)
          (selected s) (modalOpen s) (currentSearchTermForModal s)) ;;;
      ret (match o with Served => Some row | _ => None end)
  | Refused e => throw e
  | Rejected _ => ret None
  end.

(** [addCategoryMutation.mutateAsync(data)] and its two siblings: the
    mutation's [onSuccess] invalidates the list's query, its [onError] logs
    to the console. *)
Definition add_mutateAsync (k : Kind) (data : string * string) : M (option Row) :=
  try_catch
    (row <- insert_entity k data ;;
     emit (Ui ("invalidateQueries(" ++ query_key k ++ ")")) ;;;
     ret row)
    (fun error => emit (ConsoleError (console_label k)) ;;; throw error).

(** [from(table).select(...).order("name")]: only [data] is read. *)
Definition select_all (k : Kind) : M (option (list Row)) :=
  o <- call (SelectAll k) ;;
  match o with
  | Served => s <- get_store ;; ret (Some (order_by_name (table s k)))
  | _ => ret None
  end.

(** Lines 754-772, 774-792 and 794-812. *)
Definition handleSave (k : Kind) (data : string * string) : M unit :=
  try_catch
    (newRow <- add_mutateAsync k data ;;
     updated <- select_all k ;;
     match updated with
     | Some rows =>
         modify_store (fun s =>
           mkStore (table s) (set_at k rows (listed s)) (selected s)
             (modalOpen s) (currentSearchTermForModal s))
     | None => ret tt
     end ;;;
     match newRow with
     | Some row =>
         if String.eqb (id row) "" then ret tt
         else
           modify_store (fun s =>
             mkStore (table s) (listed s) (set_at k (id row) (selected s))
               (modalOpen s) (currentSearchTermForModal s))
     | None => ret tt
     end ;;;
     modify_store (fun s =>
       mkStore (table s) (listed s) (selected s)
         (set_at k false (modalOpen s)) (currentSearchTermForModal s)) ;;;
     modify_store (fun s =>
       mkStore (table s) (listed s) (selected s) (modalOpen s) None))
    (fun _ => emit (Alert (alert_message k))).

Definition handleSaveCategory := handleSave Category.

Definition handleSaveType := handleSave MedicineType.

Definition handleSaveUnit := handleSave Unit.

End Form.

End NewEntity.

(** ** [src/handlers/master-data-management/index.ts]: the items of the list

    Lines 93-116: the conversions of an [items] row as the list shows them. *)

Module ItemList.

Import JS AddItem.

(** An entry of [unit_conversions] as this code reads it: each key may be
    absent. *)
Record RawConversion := mkRaw {
  raw_id : option string;
  raw_unit_name : option string;
  raw_conversion_rate : option number;
  raw_conversion : option number;
  raw_basePrice : option number;
  raw_sellPrice : option number }.

Record ListedConversion := mkListed {
  id : string;
  conversion_rate : option number;
  unit_name : option string;
  to_unit_id : string;
  unit : UnitData.t;
  conversion : option number;
  basePrice : number;
  sellPrice : number }.

(** [a || b] on possibly absent numbers. *)
Definition number_or (a b : option number) : option number :=
  match a with
  | Some x => if truthy x then Some x else b
  | None => b
  end.

(** [v ?? 0] *)
Definition nullish_or_zero (v : option number) : number :=
  match v with Some x => x | None => 0%float end.

(** Lines 104-116; [generatedId] is [Date.now().toString() + Math.random()]. *)
Definition mappedConversion (allUnitsForConversion : list UnitData.t)
    (generatedId : string) (conv : RawConversion) : ListedConversion :=
  let unitDetail :=
    match raw_unit_name conv with
    | Some n => find (fun u => String.eqb (UnitData.name u) n) allUnitsForConversion
    | None => None
    end in
  mkListed
    (match raw_id conv with
     | Some i => if String.eqb i "" then generatedId else i
     | None => generatedId
     end)
    (number_or (raw_conversion_rate conv) (raw_conversion conv))
    (raw_unit_name conv)
    (match unitDetail with Some u => UnitData.id u | None => "" end)
    (match unitDetail with
     | Some u => UnitData.mk (UnitData.id u) (UnitData.name u)
     | None =>
         UnitData.mk ""
           (match raw_unit_name conv with
            | Some n => if String.eqb n "" then "Unknown Unit" else n
            | None => "Unknown Unit"
            end)
     end)
    (number_or (raw_conversion_rate conv) (raw_conversion conv))
    (nullish_or_zero (raw_basePrice conv))
    (nullish_or_zero (raw_sellPrice conv)).

(** How an entry written by [handleSubmit] reads back: it has the keys
    [unit_name], [to_unit_id], [conversion_rate], [base_price] and
    [sell_price], and none of [id], [conversion], [basePrice], [sellPrice]. *)
Definition raw_of_saved (s : SavedConversion.t) : RawConversion :=
  mkRaw None
    (Some (SavedConversion.unit_name s))
    (ItemForm.json_number (SavedConversion.conversion_rate s))
    None None None.

End ItemList.

(** ** The add/edit modal of the master data ([handleSave]) *)

Module AddEditModal.

Import Effects.

Section Modal.

Context {St : Type}.
Variable trim : string -> string.
Variable toLowerCase : string -> string.
Variable entityName : string.
Variable onSubmit : MasterData.ModalData -> @Effects.M MasterData.Request St unit.
Variable initialData : option MasterData.MasterDataItem.

Local Open Scope js_scope.

(** [handleSave] with the modal's [name] and [description]. *)
Definition handleSave (name description : string)
  : @Effects.M MasterData.Request St unit :=
  if String.eqb (trim name) "" then
    emit (Alert ("Nama " ++ toLowerCase entityName ++ " tidak boleh kosong."))
  else
    onSubmit
      (MasterData.mkModalData
         (match initialData with Some d => Some (MasterData.id d) | None => None end)
         name (Some description)).

End Modal.

End AddEditModal.

(** ** Rows of [items] before and after a rollback *)

Module ItemRows.

Import Effects PurchaseList.

(** The same row up to its stock, or no row on either side. *)
Definition same_but_stock (before after : option ItemData) : Prop :=
  match before, after with
  | Some d, Some d' =>
      base_unit d' = base_unit d /\ unit_conversions d' = unit_conversions d
  | None, None => True
  | _, _ => False
  end.

(** What the client code may change of the tables: stocks of existing
    items, nothing else. *)
Definition steady (t t' : Tables) : Prop :=
  purchases t' = purchases t /\
  purchase_items t' = purchase_items t /\
  forall j, same_but_stock (items t !! j) (items t' !! j).

(** An answered call that brings no row: an error, or no data. *)
Definition no_row (o : Outcome) : bool :=
  match o with
  | ServedEmpty | Refused _ => true
  | _ => false
  end.

(** The requests of a rollback none of whose reads brings a row. *)
Definition reads (lines : list PurchaseItem) : list (Event Request) :=
  map (fun line => Call (SelectItem (item_id line))) lines.

End ItemRows.

(** ** Further sample data *)

Module MoreSamples.


(** A row of [items] with no minimum stock to keep. *)
Definition no_minimum : ItemForm.ItemRow.t :=
  ItemForm.ItemRow.mk (Some "BTAN01") (Some "Paracetamol 500 mg") (Some "t1")
    (Some "c1") (Some "u1") None None None (Some 1000%float) (Some 1250%float)
    (Some 0%float) (Some true) (Some true) (Some false) (Some "2025-06-28").

(** A backend that makes the id of a new row from its name. *)
Definition inserted_row (k : NewEntity.Kind) (rows : list NewEntity.Row)
    (name description : string) : NewEntity.Row :=
  NewEntity.mkRow ("id-" ++ name) name description "2025-06-28".

(** The item form with nothing listed or selected, a modal open. *)
Definition empty_form : NewEntity.Store :=
  NewEntity.mkStore (fun _ => []) (fun _ => []) (fun _ => "") (fun _ => true)
    (Some "Bot").

End MoreSamples.

(** * Properties *)

(** ** Binary64 subtraction and comparison

    [x - y] of two comparable values with [x < y] is never above zero:
    rounding keeps the sign of the exact difference. *)

Module Binary64Facts.

Import Binary64.

Local Open Scope Z_scope.















Lemma SFeqb_refl x : x <> S754_nan -> SFeqb x x = true.
Proof.
  destruct x as [s|[]| |[] m e]; try reflexivity; try congruence; intros _.
  all: unfold SFeqb; simpl; rewrite Z.compare_refl.
  all: change (Pos.compare_cont Eq m m) with (Pos.compare m m).
  all: now rewrite Pos.compare_refl.
Qed.



End Binary64Facts.

(** ** JavaScript arithmetic on [float] *)

Module JSFacts.

Import JS Binary64 Binary64Facts.

Local Open Scope float_scope.







End JSFacts.

(** ** Stock rollback on purchase deletion *)

Section StockRollback.

Import JS Effects PurchaseList Binary64 JSFacts.

Local Open Scope float_scope.

Lemma find_none_of_no_match (line : string) ucs :
  Forall (fun uc => unit_name uc <> line) ucs ->
  find (fun uc => String.eqb (unit_name uc) line) ucs = None.
Proof.
  induction 1 as [|uc ucs Hne _ IH]; [reflexivity|].
  simpl. apply String.eqb_neq in Hne. now rewrite Hne.
Qed.



(** C1, as the code has it: a line in a unit other than the base unit, with
    a conversion record of that unit name, is converted by dividing its
    quantity by the record's conversion rate; that quotient is what is
    subtracted from the stock before clamping. *)
Theorem rollback_converts_by_division item itemData ucs uc :
  line_unit item <> base_unit itemData ->
  unit_conversions itemData = Some ucs ->
  find (fun c => String.eqb (unit_name c) (line_unit item)) ucs = Some uc ->
  unit_name uc = line_unit item /\
  quantityInBaseUnit item itemData = quantity item / conversion_rate uc /\
  newStock item itemData =
    Math_max 0 (nullable_or_zero (stock itemData)
                - quantity item / conversion_rate uc).
Proof.
  intros Hne Hucs Hfind.
  assert (Q : quantityInBaseUnit item itemData
              = quantity item / conversion_rate uc).
  { unfold quantityInBaseUnit.
    apply String.eqb_neq in Hne. rewrite Hne. simpl.
    now rewrite Hucs, Hfind. }
  split; [|split].
  - apply find_some in Hfind. now apply String.eqb_eq.
  - exact Q.
  - unfold newStock. now rewrite Q.
Qed.

Lemma rollback_converts_by_division_witness :
  PurchaseList.quantityInBaseUnit Samples.box_line Samples.strip_item = 5
  /\ PurchaseList.newStock Samples.box_line Samples.strip_item = 95.
Proof.
  destruct (rollback_converts_by_division Samples.box_line Samples.strip_item
              [mkUnitConversion "Box" 2] (mkUnitConversion "Box" 2))
    as (_ & Q & N).
  - discriminate.
  - reflexivity.
  - reflexivity.
  - split; [rewrite Q | rewrite N]; reflexivity.
Defined.

(** C1, as stated, fails: ten boxes at the stored rate 2 are rolled back as
    5 base units, not as the product 20. *)
Lemma rollback_does_not_multiply :
  line_unit Samples.box_line <> base_unit Samples.strip_item /\
  unit_conversions Samples.strip_item = Some [mkUnitConversion "Box" 2] /\
  quantity Samples.box_line * 2 = 20 /\
  quantityInBaseUnit Samples.box_line Samples.strip_item = 5 /\
  quantityInBaseUnit Samples.box_line Samples.strip_item
    <> quantity Samples.box_line * 2.
Proof.
  repeat split; try reflexivity; discriminate.
Qed.



(** C8: a line in the base unit, and a line in another unit for which the
    item has no conversion record of that name (or no conversions at all),
    are rolled back by their raw quantity. *)
Theorem rollback_without_conversion item itemData :
  line_unit item = base_unit itemData \/
  (line_unit item <> base_unit itemData /\
   forall ucs, unit_conversions itemData = Some ucs ->
               Forall (fun uc => unit_name uc <> line_unit item) ucs) ->
  quantityInBaseUnit item itemData = quantity item /\
  newStock item itemData =
    Math_max 0 (nullable_or_zero (stock itemData) - quantity item).
Proof.
  intros H.
  assert (Q : quantityInBaseUnit item itemData = quantity item).
  { unfold quantityInBaseUnit. destruct H as [E | [_ H]].
    - rewrite E, String.eqb_refl. reflexivity.
    - destruct (negb _); [|reflexivity].
      destruct (unit_conversions itemData) as [ucs|]; [|reflexivity].
      now rewrite (find_none_of_no_match _ _ (H ucs eq_refl)). }
  split; [exact Q|]. unfold newStock. now rewrite Q.
Qed.

Lemma rollback_without_conversion_witness :
  PurchaseList.quantityInBaseUnit Samples.tablet_line Samples.strip_item = 4
  /\ PurchaseList.quantityInBaseUnit Samples.strip_line Samples.plain_item = 3.
Proof.
  split.
  - refine (proj1 (rollback_without_conversion Samples.tablet_line Samples.strip_item _)).
    right. split; [discriminate|].
    intros ucs E. injection E as <-.
    constructor; [discriminate | constructor].
  - refine (proj1 (rollback_without_conversion Samples.strip_line Samples.plain_item _)).
    left. reflexivity.
Defined.



End StockRollback.

(** ** Sell price from margin *)

Section SellPrice.

Import JS AddItem.

Local Open Scope float_scope.

(** [round_half_up] is floor (x + 1/2): with [x = v / 2^k], the result [n]
    satisfies [n <= x + 1/2 < n + 1], here multiplied by [2^(k+1)]. *)
Lemma round_half_up_spec s m e :
  (e < 0)%Z ->
  let v := cond_Zopp s (Z.pos m) in
  let n := round_half_up s m e in
  (n * 2 ^ (1 - e) <= 2 * v + 2 ^ (- e) < (n + 1) * 2 ^ (1 - e))%Z.
Proof.
  intros He v n. subst n. unfold round_half_up. fold v.
  assert (P : (0 < 2 ^ (1 - e))%Z) by (apply Z.pow_pos_nonneg; lia).
  pose proof (Z.mul_div_le (v * 2 + 2 ^ (- e)) _ P).
  pose proof (Z.mul_succ_div_gt (v * 2 + 2 ^ (- e)) _ P).
  lia.
Qed.

Example Math_round_ties :
  Math_round 2.5 = 3 /\ Math_round (-2.5) = -2 /\
  Math_round 0.5 = 1 /\ Math_round 7 = 7 /\ Math_round 0.25 = 0.
Proof. repeat split; reflexivity. Qed.

Lemma not_positive_of_leb_zero b : (b <=? 0) = true -> (0 <? b) = false.
Proof.
  rewrite leb_spec, FloatAxioms.ltb_spec.
  change (Prim2SF 0) with (S754_zero false).
  destruct (Prim2SF b) as [s|[]| |[] m e]; simpl; try discriminate; reflexivity.
Qed.

(** C5: with a base price above zero the derived sell price is
    [Math.round(base_price * (1 + margin / 100))]; with a base price of zero
    or below it is 0, for every margin. *)
Theorem calculateSellPriceFromMargin_spec formData margin :
  let base := FormData.base_price formData in
  ((0 <? base) = true ->
   calculateSellPriceFromMargin formData margin
   = Math_round (base * (1 + margin / 100))) /\
  ((base <=? 0) = true -> calculateSellPriceFromMargin formData margin = 0).
Proof.
  cbv zeta. unfold calculateSellPriceFromMargin. split; intros H.
  - now rewrite H.
  - now rewrite (not_positive_of_leb_zero _ H).
Qed.

Lemma calculateSellPriceFromMargin_witness :
  AddItem.calculateSellPriceFromMargin Samples.paracetamol 25 = 125.
Proof.
  rewrite (proj1 (calculateSellPriceFromMargin_spec Samples.paracetamol 25) eq_refl).
  reflexivity.
Defined.

End SellPrice.

(** ** Pagination of the master-data fetch *)

Section Pagination.

Import JS MasterData.

Local Open Scope Z_scope.

Lemma Math_ceil_div_pos a b :
  0 < b -> Math_ceil_div a b = - ((- a) / b).
Proof.
  intros Hb. unfold Math_ceil_div.
  destruct b as [|p|p]; try lia.
  unfold Qceiling, Qfloor, Qdiv, Qinv, Qmult, Qopp, inject_Z, Qnum, Qden.
  cbn [Z.mul Pos.mul]. rewrite Z.mul_1_r. reflexivity.
Qed.

(** The ceiling of the quotient is the least number of pages that hold all
    the rows. *)
Lemma Math_ceil_div_spec a b :
  0 < b ->
  (Math_ceil_div a b - 1) * b < a <= Math_ceil_div a b * b.
Proof.
  intros Hb. rewrite Math_ceil_div_pos by assumption.
  pose proof (Z.mul_div_le (- a) b Hb).
  pose proof (Z.mul_succ_div_gt (- a) b Hb).
  lia.
Qed.

Context {Row : Type}.
Variable toLowerCase : string -> string.
Variable row_matches : string -> Row -> bool.
Variable order_by_name : list Row -> list Row.
Variable completeItem : Row -> Row.

Lemma range_length from to (rows : list Row) :
  (length (range from to rows) <= Z.to_nat (to - from + 1))%nat.
Proof. unfold range. apply firstn_le_length. Qed.

(** C6: for a page [p >= 1] of size [n >= 1], the fetch asks for the rows at
    offsets [(p-1)*n] to [(p-1)*n + n - 1] of the matching rows in name
    order, so for at most [n] rows; the total it reports is the number of
    matching rows, whatever the page; and the number of pages is the ceiling
    of that total over [n]. *)
Theorem fetchData_window tableName (rows : list Row) page searchTerm limit :
  1 <= page -> 1 <= limit ->
  let found := matching toLowerCase row_matches searchTerm rows in
  let result :=
    fetchData toLowerCase row_matches order_by_name completeItem
      tableName rows page searchTerm limit in
  window page limit = ((page - 1) * limit, (page - 1) * limit + limit - 1) /\
  snd (window page limit) - fst (window page limit) + 1 = limit /\
  fst result =
    (if String.eqb tableName "items" then map completeItem else fun l => l)
      (firstn (Z.to_nat limit)
         (skipn (Z.to_nat ((page - 1) * limit)) (order_by_name found))) /\
  Z.of_nat (length (fst result)) <= limit /\
  snd result = Z.of_nat (length found) /\
  (forall totalItems,
     (totalPages totalItems limit - 1) * limit < totalItems
       <= totalPages totalItems limit * limit).
Proof.
  intros Hp Hl. cbv zeta. unfold fetchData, window.
  replace ((page - 1) * limit + limit - 1 - (page - 1) * limit + 1) with limit by lia.
  repeat split.
  - cbn [fst snd]. lia.
  - unfold range.
    replace ((page - 1) * limit + limit - 1 - (page - 1) * limit + 1) with limit by lia.
    destruct (String.eqb tableName "items"); reflexivity.
  - pose proof (range_length ((page - 1) * limit) ((page - 1) * limit + limit - 1)
                  (order_by_name (matching toLowerCase row_matches searchTerm rows))) as L.
    replace ((page - 1) * limit + limit - 1 - (page - 1) * limit + 1) with limit in L by lia.
    destruct (String.eqb tableName "items"); cbn [fst];
      rewrite ?length_map; lia.
  - destruct (String.eqb tableName "items"); reflexivity.
  - apply Math_ceil_div_spec. lia.
  - apply Math_ceil_div_spec. lia.
Qed.

End Pagination.

(** The purchase list asks for the same window and counts pages alike. *)
Lemma fetchPurchases_same_window page limit totalItems :
  PurchaseList.fetchPurchases_range page limit = MasterData.window page limit /\
  PurchaseList.totalPages totalItems limit = MasterData.totalPages totalItems limit.
Proof. split; reflexivity. Qed.

Lemma fetchData_window_witness :
  (MasterData.window 3 10 = (20, 29)
   /\ (MasterData.totalPages 25 10 - 1) * 10 < 25
        <= MasterData.totalPages 25 10 * 10)%Z.
Proof.
  destruct (fetchData_window (fun s => s) (fun _ (_ : nat) => true) (fun l => l)
              (fun r => r) "item_units" (seq 0 25) 3%Z "" 10%Z)
    as (W & _ & _ & _ & _ & P); [lia | lia |].
  split; [exact W | exact (P 25%Z)].
Defined.

(** ** Page reset in the master-data hook *)

Section PageReset.

Import MasterData.

Local Open Scope Z_scope.

(** No action of the hook changes the applied search term or the page size
    without putting the page back to 1. *)
Lemma step_changes_key_resets_page s a :
  debouncedSearch (step s a) <> debouncedSearch s \/
  itemsPerPage (step s a) <> itemsPerPage s ->
  currentPage (step s a) = 1.
Proof.
  destruct a; cbn [step];
    unfold setSearch, debounceElapsed, editTimerElapsed, setIsAddModalOpen,
      setIsEditModalOpen, handleEdit, setEditingItem, handlePageChange,
      handleItemsPerPageChange;
    repeat match goal with
      | |- context [if ?c then _ else _] => destruct c
      end;
    cbn; intros [H | H]; try reflexivity; congruence.
Qed.

(** C9: when the debounce timer applies a search term, and when the page
    size is changed, the current page becomes 1; hence every query key that
    differs from the previous one in its search term or page size has page
    1. *)
Theorem search_and_page_size_reset_page s :
  (searchTimer s = true ->
   debouncedSearch (debounceElapsed s) = search s /\
   currentPage (debounceElapsed s) = 1) /\
  (forall value,
     itemsPerPage (handleItemsPerPageChange value s) = value /\
     currentPage (handleItemsPerPageChange value s) = 1) /\
  (forall a,
     snd (fst (queryKey (step s a))) <> snd (fst (queryKey s)) \/
     snd (queryKey (step s a)) <> snd (queryKey s) ->
     fst (fst (queryKey (step s a))) = 1).
Proof.
  split; [|split].
  - intros H. unfold debounceElapsed. rewrite H. split; reflexivity.
  - intros value. split; reflexivity.
  - intros a. apply step_changes_key_resets_page.
Qed.

Lemma search_and_page_size_reset_page_witness :
  MasterData.debouncedSearch
    (MasterData.debounceElapsed
       (MasterData.setSearch "para"
          (MasterData.handlePageChange 4 MasterData.initialState))) = "para"
  /\ MasterData.currentPage
       (MasterData.debounceElapsed
          (MasterData.setSearch "para"
             (MasterData.handlePageChange 4 MasterData.initialState))) = 1%Z.
Proof.
  exact (proj1 (search_and_page_size_reset_page
                  (MasterData.setSearch "para"
                     (MasterData.handlePageChange 4 MasterData.initialState)))
           eq_refl).
Defined.

End PageReset.

(** ** Saving an item *)

Section SaveItem.

Import JS Effects AddItem.

(** C10: in add mode [handleSubmit] sends one request, the insert of
    [mainItemData], and that object has [stock: 0] whatever the form, the
    base unit and the conversions hold. *)
Theorem new_item_has_zero_stock
    itemId refetchItems formData baseUnit conversions (w : World Request unit) :
  ItemPayload.stock (mainItemData formData baseUnit conversions) = Some 0%float /\
  exists events,
    log (snd (handleSubmit itemId refetchItems false formData baseUnit conversions w))
      = (log w ++ events)%list /\
    List.filter is_call events
      = [Call (InsertItem (mainItemData formData baseUnit conversions))].
Proof.
  split; [reflexivity|].
  destruct w as [st outs lg].
  unfold handleSubmit, submitItem. run.
  destruct outs as [|[| |e|e] rest]; destruct refetchItems; run;
    rewrite <- ?app_assoc; cbn [app];
    eexists; (split; [reflexivity | reflexivity]).
Qed.

End SaveItem.

(** ** Failing backend calls *)

Section BackendFailure.

Import Effects.

(** C7, as the code has it.  When the one backend call of a master-data
    mutation or of the item save fails, the call is made once and one alert
    is shown, with the message of that operation.  The three mutations
    started with [mutate], and [handleSubmit], then return normally;
    [mutateAsync], and with it [handleModalSubmit] for add and update,
    rethrows the error to its caller after the alert. *)
Theorem backend_failure_is_alerted_once
    (rejected : bool) (e : Error) (tableName entityNameLabel : string)
    (st : MasterData.State) (rest : list Outcome)
    (lg : list (Event MasterData.Request))
    (newItem itemData : MasterData.ModalData)
    (updatedItem : string * MasterData.ModalData) (deletedId : string)
    (itemId : option string) (refetchItems isEditMode : bool)
    (formData : AddItem.FormData.t) (baseUnit : string)
    (conversions : list AddItem.UnitConversion.t)
    (saveLog : list (Event AddItem.Request)) :
  let w := mkWorld st (failure rejected e :: rest) lg in
  let after req msg := mkWorld st rest (lg ++ [Call req; Alert msg]) in
  let added :=
    after (MasterData.Insert tableName newItem)
      ("Gagal menambahkan " ++ entityNameLabel ++ ": " ++ e) in
  let updated :=
    after (MasterData.Update tableName (fst updatedItem)
             (MasterData.modal_name (snd updatedItem))
             (MasterData.modal_description (snd updatedItem)))
      ("Gagal memperbarui " ++ entityNameLabel ++ ": " ++ e) in
  let deleted :=
    after (MasterData.Delete tableName deletedId)
      ("Gagal menghapus " ++ entityNameLabel ++ ": " ++ e) in
  mutate (MasterData.addMutation tableName entityNameLabel) newItem w
    = (Ok tt, added) /\
  mutate (MasterData.updateMutation tableName entityNameLabel) updatedItem w
    = (Ok tt, updated) /\
  mutate (MasterData.deleteMutation tableName entityNameLabel) deletedId w
    = (Ok tt, deleted) /\
  mutateAsync (MasterData.addMutation tableName entityNameLabel) newItem w
    = (Throw e, added) /\
  mutateAsync (MasterData.updateMutation tableName entityNameLabel) updatedItem w
    = (Throw e, updated) /\
  (exists req msg,
     MasterData.handleModalSubmit tableName entityNameLabel itemData w
       = (Throw e, after req msg)) /\
  AddItem.handleSubmit itemId refetchItems isEditMode formData baseUnit conversions
    (mkWorld tt (failure rejected e :: rest) saveLog)
    = (Ok tt,
       mkWorld tt rest
         (saveLog ++
          [Ui "preventDefault()"; Ui "setSaving(true)";
           Call (if isEditMode
                 then AddItem.UpdateItem itemId
                        (AddItem.itemUpdateData formData baseUnit conversions)
                 else AddItem.InsertItem
                        (AddItem.mainItemData formData baseUnit conversions));
           ConsoleError "Error saving item:";
           Alert "Gagal menyimpan data item. Silakan coba lagi.";
           Ui "setSaving(false)"])).
Proof.
  cbv zeta.
  assert (A : forall v,
    mutateAsync (MasterData.addMutation tableName entityNameLabel) v
      (mkWorld st (failure rejected e :: rest) lg)
    = (Throw e,
       mkWorld st rest
         (lg ++ [Call (MasterData.Insert tableName v);
                 Alert ("Gagal menambahkan " ++ entityNameLabel ++ ": " ++ e)]))).
  { intros v. unfold mutateAsync, MasterData.addMutation, MasterData.throw_if_error.
    cbn [mutationFn onSuccess onError].
    unfold failure. destruct rejected; run; rewrite <- app_assoc; reflexivity. }
  assert (U : forall v,
    mutateAsync (MasterData.updateMutation tableName entityNameLabel) v
      (mkWorld st (failure rejected e :: rest) lg)
    = (Throw e,
       mkWorld st rest
         (lg ++ [Call (MasterData.Update tableName (fst v)
                         (MasterData.modal_name (snd v))
                         (MasterData.modal_description (snd v)));
                 Alert ("Gagal memperbarui " ++ entityNameLabel ++ ": " ++ e)]))).
  { intros v. unfold mutateAsync, MasterData.updateMutation, MasterData.throw_if_error.
    cbn [mutationFn onSuccess onError].
    unfold failure. destruct rejected; run; rewrite <- app_assoc; reflexivity. }
  repeat split.
  - unfold mutate, try_catch at 1. rewrite A. reflexivity.
  - unfold mutate, try_catch at 1. rewrite U. reflexivity.
  - unfold mutate, mutateAsync, MasterData.deleteMutation, MasterData.throw_if_error.
    cbn [mutationFn onSuccess onError].
    unfold failure. destruct rejected; run; rewrite <- app_assoc; reflexivity.
  - apply A.
  - apply U.
  - unfold MasterData.handleModalSubmit.
    destruct (MasterData.modal_id itemData) as [i|];
      [destruct (String.eqb i "")|]; rewrite ?A, ?U; eauto.
  - unfold AddItem.handleSubmit, AddItem.submitItem.
    unfold failure.
    destruct isEditMode, rejected; run; rewrite <- ?app_assoc; reflexivity.
Qed.

(** C7, as stated, fails for [handleModalSubmit]: a refused insert of a new
    category is alerted once and attempted once, and the error then leaves
    the handler. *)
Lemma handleModalSubmit_rethrows :
  let result :=
    MasterData.handleModalSubmit "item_categories" "Kategori"
      Samples.new_category Samples.refusing_insert in
  fst result = Throw "duplicate key value" /\
  fst result <> Ok tt /\
  alerts (log (snd result)) = 1 /\
  calls (log (snd result)) = 1.
Proof. cbv zeta. repeat split; try reflexivity. discriminate. Qed.

End BackendFailure.

(** ** Loading and saving unit conversions *)

Section UnitConversions.

Import JS AddItem RoundTrip.

Variable h : UnitConversionHook.
Hypothesis appends : hook_appends h.
Hypothesis removes : hook_removes h.



(** An entry without a numeric rate adds nothing. *)
Lemma loadedConversion_without_rate units tempId conv :
  DBUnitConversion.conversion_rate conv = None ->
  loadedConversion units tempId conv = None.
Proof. intros E. unfold loadedConversion. now rewrite E. Qed.



(** When the unit id needs no re-resolution, all five values are kept. *)
Lemma written_back_preserved units r s :
  written_back units r s ->
  match listed_unit units r with
  | Some u => UnitData.id u = DBUnitConversion.to_unit_id r
  | None => DBUnitConversion.to_unit_id r <> ""
  end ->
  preserved r s.
Proof.
  intros (N & R & B & S & I) H. unfold preserved. repeat split; auto.
  destruct (listed_unit units r) as [u|]; [congruence|].
  apply String.eqb_neq in H. now rewrite H in I.
Qed.


End UnitConversions.

Section UnitConversionSamples.

Import JS AddItem RoundTrip.

Lemma list_hook_appends : hook_appends list_hook.
Proof. intros c l. eexists. reflexivity. Qed.

Lemma list_hook_removes : hook_removes list_hook.
Proof. intros i l. reflexivity. Qed.



End UnitConversionSamples.

(** * Further properties *)

(** ** The whole rollback *)

Section WholeRollback.

Import JS Effects PurchaseList ItemRows.

Local Open Scope float_scope.
Local Open Scope list_scope.







End WholeRollback.

(** ** What a deletion leaves alone *)

Section DeletionInvariants.

Import JS Effects PurchaseList ItemRows.

Local Open Scope float_scope.
Local Open Scope list_scope.

Lemma same_but_stock_refl o : same_but_stock o o.
Proof. destruct o; cbn; auto. Qed.

Lemma same_but_stock_trans a b c :
  same_but_stock a b -> same_but_stock b c -> same_but_stock a c.
Proof.
  destruct a, b, c; cbn; try tauto.
  intros [-> ->] [-> ->]. auto.
Qed.

Lemma steady_refl t : steady t t.
Proof. repeat split. intros j. apply same_but_stock_refl. Qed.

Lemma steady_trans t1 t2 t3 : steady t1 t2 -> steady t2 t3 -> steady t1 t3.
Proof.
  intros (P & PI & I) (P' & PI' & I'). repeat split; try congruence.
  intros j. eapply same_but_stock_trans; eauto.
Qed.

Lemma steady_set_stock t id s :
  steady t (mkTables (alter (set_stock s) id (items t)) (purchase_items t) (purchases t)).
Proof.
  repeat split. intros j. cbn [items].
  destruct (String.eqb_spec j id) as [->|N].
  - rewrite lookup_alter_eq. destruct (items t !! id); cbn; auto.
  - rewrite lookup_alter_ne by congruence. apply same_but_stock_refl.
Qed.

Lemma select_item_store id w :
  store (snd (select_item id w)) = store w.
Proof.
  unfold select_item. run.
  destruct (outcomes w) as [|[| | |] ?]; reflexivity.
Qed.

Lemma update_item_stock_steady id s w :
  steady (store w) (store (snd (update_item_stock id s w))).
Proof.
  unfold update_item_stock. run.
  destruct (outcomes w) as [|[| | |] ?]; cbn [snd store];
    (apply steady_set_stock || apply steady_refl).
Qed.

Lemma rollback_steady lines :
  forall w, steady (store w) (store (snd (rollback lines w))).
Proof.
  induction lines as [|line rest IH]; intros w.
  - apply steady_refl.
  - cbn [rollback]. unfold bind at 1 2.
    pose proof (select_item_store (item_id line) w) as S.
    destruct (select_item (item_id line) w) as [[[d|]|e] w1]; cbn [snd] in S.
    + pose proof (update_item_stock_steady (item_id line) (newStock line d) w1) as U.
      destruct (update_item_stock (item_id line) (newStock line d) w1) as [[[]|e] w2];
        cbn [snd] in U |- *; rewrite S in U.
      * eapply steady_trans; [exact U | apply IH].
      * exact U.
    + unfold ret at 1. rewrite <- S. apply IH.
    + cbn [snd]. rewrite S. apply steady_refl.
Qed.

Lemma select_purchase_items_store id w :
  store (snd (select_purchase_items id w)) = store w.
Proof.
  unfold select_purchase_items. run.
  destruct (outcomes w) as [|[| | |] ?]; reflexivity.
Qed.

Lemma delete_purchase_effect id w :
  let t' := store (snd (delete_purchase id w)) in
  items t' = items (store w) /\
  purchase_items t' = purchase_items (store w) /\
  (purchases t' = purchases (store w) \/
   purchases t' = delete id (purchases (store w))).
Proof.
  unfold delete_purchase. run.
  destruct (outcomes w) as [|[| | |] ?]; cbn; auto.
Qed.

Lemma deletePurchase_effect id w r w' :
  deletePurchase id w = (r, w') ->
  purchase_items (store w') = purchase_items (store w) /\
  (forall j, same_but_stock (items (store w) !! j) (items (store w') !! j)) /\
  (purchases (store w') = purchases (store w) \/
   purchases (store w') = delete id (purchases (store w))).
Proof.
  unfold deletePurchase. unfold bind at 1.
  pose proof (select_purchase_items_store id w) as S.
  destruct (select_purchase_items id w) as [[[data [e|]]|e] w1]; cbn [snd fst] in S |- *.
  - unfold throw. intros [= <- <-]. rewrite S.
    repeat split; auto. intros j. apply same_but_stock_refl.
  - unfold bind at 1.
    pose proof (rollback_steady (match data with Some l => l | None => [] end) w1) as R.
    destruct (rollback (match data with Some l => l | None => [] end) w1)
      as [[[]|e] w2]; cbn [snd] in R; rewrite S in R;
      destruct R as (P & PI & I).
    + unfold bind.
      pose proof (delete_purchase_effect id w2) as D.
      destruct (delete_purchase id w2) as [[[e|]|e] w3]; cbn [snd] in D;
        destruct D as (DI & DPI & DP); unfold throw, ret; intros [= <- <-];
        rewrite DI, DPI; (repeat split; auto);
        rewrite <- P; exact DP.
    + intros [= <- <-]. repeat split; auto.
  - intros [= <- <-]. rewrite S. repeat split; auto. intros j. apply same_but_stock_refl.
Qed.

(** X2: whatever the backend answers, a confirmed deletion returns normally
    and changes nothing of the tables but stocks of existing items and,
    possibly, the one purchase row: the line rows stay, no item row appears
    or disappears, and no item's base unit or conversions change. *)
Theorem deletion_changes_stock_only (id : string) (w : World Request Tables) :
  let result := confirmDelete id w in
  let after := store (snd result) in
  fst result = Ok tt /\
  purchase_items after = purchase_items (store w) /\
  (forall j, same_but_stock (items (store w) !! j) (items after !! j)) /\
  (purchases after = purchases (store w) \/
   purchases after = delete id (purchases (store w))).
Proof.
  cbv zeta.
  unfold confirmDelete, mutate, mutateAsync, deletePurchaseMutation.
  cbn [mutationFn onSuccess onError].
  unfold try_catch, bind.
  destruct (deletePurchase id w) as [[[]|e] w1] eqn:E;
    apply deletePurchase_effect in E; run; cbn [fst snd store];
    (split; [reflexivity | exact E]).
Qed.

End DeletionInvariants.

(** ** Reads without a row, and a second attempt *)

Section DeletionRetry.

Import JS Effects PurchaseList ItemRows.

Local Open Scope float_scope.
Local Open Scope list_scope.

Lemma rollback_no_rows lines :
  forall os rest t lg,
    Forall (fun o => no_row o = true) os ->
    length os = length lines ->
    rollback lines (mkWorld t (os ++ rest) lg) =
    (Ok tt, mkWorld t rest (lg ++ reads lines)).
Proof.
  induction lines as [|line lines IH]; intros os rest t lg F L.
  - destruct os; [|discriminate]. cbn. now rewrite app_nil_r.
  - destruct os as [|o os]; [discriminate|].
    apply Forall_cons_iff in F. destruct F as [Ho F].
    injection L as L.
    change ((o :: os) ++ rest) with (o :: (os ++ rest)).
    cbn [rollback]. unfold select_item.
    destruct o; try discriminate; run;
      rewrite (IH os rest t _ F L);
      unfold reads; cbn [map]; now rewrite <- app_assoc.
Qed.

(** X3: an item read that is answered with an error or without data is
    not noticed.  When every item read of a deletion is answered so, no
    stock is written, the purchase row is deleted all the same, and no
    alert is shown. *)
Theorem unread_items_do_not_stop_deletion
    (t : Tables) (id : string) (os : list Outcome) :
  let lines := List.filter (fun r => String.eqb (purchase_id r) id) (purchase_items t) in
  Forall (fun o => no_row o = true) os ->
  length os = length lines ->
  confirmDelete id (mkWorld t (Served :: os ++ [Served]) []) =
  (Ok tt,
   mkWorld (mkTables (items t) (purchase_items t) (delete id (purchases t))) []
     (Call (SelectPurchaseItems id) :: reads lines ++
      [Call (DeletePurchase id); Ui "invalidateQueries(purchases)"])).
Proof.
  cbv zeta. intros F L.
  assert (D : deletePurchase id (mkWorld t (Served :: os ++ [Served]) [])
              = (Ok tt,
                 mkWorld (mkTables (items t) (purchase_items t)
                            (delete id (purchases t))) []
                   (Call (SelectPurchaseItems id) ::
                    reads (List.filter (fun r => String.eqb (purchase_id r) id)
                             (purchase_items t))
                    ++ [Call (DeletePurchase id)]))).
  { unfold deletePurchase, select_purchase_items. run. cbn [app].
    rewrite (rollback_no_rows _ _ _ _ _ F L).
    unfold delete_purchase. run. reflexivity. }
  unfold confirmDelete, mutate, mutateAsync, deletePurchaseMutation.
  cbn [mutationFn onSuccess onError].
  unfold try_catch, bind. rewrite D. run.
  cbn [app]. now rewrite <- app_assoc.
Qed.

Lemma unread_items_witness :
  PurchaseList.confirmDelete "p1"
    (Effects.mkWorld Samples.two_line_tables
       [Effects.Served; Effects.Refused "permission denied"; Effects.ServedEmpty;
        Effects.Served] []) =
  (Effects.Ok tt,
   Effects.mkWorld
     (PurchaseList.mkTables (PurchaseList.items Samples.two_line_tables)
        (PurchaseList.purchase_items Samples.two_line_tables)
        (delete "p1" (PurchaseList.purchases Samples.two_line_tables))) []
     [Effects.Call (PurchaseList.SelectPurchaseItems "p1");
      Effects.Call (PurchaseList.SelectItem "A");
      Effects.Call (PurchaseList.SelectItem "B");
      Effects.Call (PurchaseList.DeletePurchase "p1");
      Effects.Ui "invalidateQueries(purchases)"]).
Proof.
  apply (unread_items_do_not_stop_deletion Samples.two_line_tables "p1"
           [Effects.Refused "permission denied"; Effects.ServedEmpty]).
  - repeat constructor.
  - reflexivity.
Defined.

Lemma quantityInBaseUnit_set_stock line s d :
  quantityInBaseUnit line (set_stock s d) = quantityInBaseUnit line d.
Proof. reflexivity. Qed.



End DeletionRetry.

(** ** Strings: [parseInt], [toString], [includes], [LIKE] *)

Section StringFacts.

Import Stdlib.Strings.Ascii.
Import Str.

Local Open Scope string_scope.

Lemma drop_length_app p s : drop (String.length p) (p ++ s) = s.
Proof. induction p as [|c p IH]; [reflexivity | exact IH]. Qed.

Lemma length_zeros n : String.length (zeros n) = n.
Proof. induction n as [|n IH]; [reflexivity | cbn [zeros String.length]; now f_equal]. Qed.

Lemma length_app (s t : string) :
  String.length (s ++ t) = (String.length s + String.length t)%nat.
Proof.
  induction s as [|c s IH]; [reflexivity|].
  change (String c s ++ t) with (String c (s ++ t)).
  cbn [String.length Nat.add]. now f_equal.
Qed.

Lemma length_padStart0 n s :
  String.length (padStart0 n s) = Nat.max n (String.length s).
Proof. unfold padStart0. rewrite length_app, length_zeros. lia. Qed.

Lemma digits_prefix_digits d :
  digits_prefix (DecimalString.NilEmpty.string_of_uint d)
  = DecimalString.NilEmpty.string_of_uint d.
Proof.
  induction d as [|d IH|d IH|d IH|d IH|d IH|d IH|d IH|d IH|d IH|d IH];
    cbn [DecimalString.NilEmpty.string_of_uint digits_prefix];
    rewrite ?IH; reflexivity.
Qed.

Lemma parseInt_digits c s :
  is_digit c = true ->
  digits_prefix s = s ->
  parseInt (String c s) =
  match DecimalString.NilZero.uint_of_string (String c s) with
  | Some d => Some (Z.of_uint d)
  | None => None
  end.
Proof.
  intros Hc Hs.
  assert (Hd : digits_prefix (String c s) = String c s).
  { cbn [digits_prefix]. now rewrite Hc, Hs. }
  assert (Hn : s = EmptyString \/
               exists c2 s2, s = String c2 s2 /\ is_digit c2 = true).
  { destruct s as [|c2 s2]; [now left | right].
    exists c2, s2. split; [reflexivity|].
    cbn [digits_prefix] in Hs. destruct (is_digit c2); [reflexivity | discriminate]. }
  unfold parseInt. cbn [skip_spaces].
  replace (is_space c) with false
    by (destruct c as [[] [] [] [] [] [] [] []]; try discriminate Hc; reflexivity).
  destruct c as [[] [] [] [] [] [] [] []]; try discriminate Hc;
    cbn [fst snd]; try (rewrite Hd; now destruct DecimalString.NilZero.uint_of_string).
  destruct Hn as [-> | (c2 & s2 & -> & H2)].
  - reflexivity.
  - destruct c2 as [[] [] [] [] [] [] [] []]; try discriminate H2;
      cbn [fst snd]; rewrite Hd; now destruct DecimalString.NilZero.uint_of_string.
Qed.

Lemma decimal_pos p :
  decimal (Z.pos p) = DecimalString.NilEmpty.string_of_uint (Pos.to_uint p).
Proof.
  unfold decimal. cbn [Z.to_int DecimalString.NilZero.string_of_int].
  unfold DecimalString.NilZero.string_of_uint.
  pose proof (DecimalPos.Unsigned.to_uint_nonnil p) as N.
  destruct (Pos.to_uint p); [contradiction | reflexivity ..].
Qed.

(** [parseInt] reads back what [toString] writes. *)
Lemma parseInt_decimal n : (0 <= n)%Z -> parseInt (decimal n) = Some n.
Proof.
  intros Hn. destruct n as [|p|p]; [reflexivity | | lia].
  rewrite decimal_pos.
  pose proof (DecimalPos.Unsigned.to_uint_nonnil p) as N.
  pose proof (digits_prefix_digits (Pos.to_uint p)) as D.
  pose proof (DecimalString.NilZero.usu (Pos.to_uint p) N) as U.
  unfold DecimalString.NilZero.string_of_uint in U.
  assert (V : Z.of_uint (Pos.to_uint p) = Z.pos p).
  { unfold Z.of_uint. now rewrite DecimalPos.Unsigned.of_to. }
  destruct (Pos.to_uint p) as [|d|d|d|d|d|d|d|d|d|d]; [contradiction | ..];
    cbn [DecimalString.NilEmpty.string_of_uint] in *;
    (rewrite parseInt_digits;
     [ rewrite U, V; reflexivity
     | reflexivity
     | cbn [digits_prefix] in D;
       match type of D with (if ?b then _ else _) = _ =>
         change b with true in D end;
       now injection D ]).
Qed.

Lemma startsWith_iff s p : startsWith s p = true <-> exists v, s = p ++ v.
Proof.
  unfold startsWith. revert s.
  induction p as [|c p IH]; intros s.
  - split; [exists s; reflexivity | now destruct s].
  - destruct s as [|d s]; cbn [String.prefix].
    + split; [discriminate | intros [v [=]]].
    + destruct (ascii_dec c d) as [->|N].
      * rewrite IH. split; intros [v E]; exists v.
        -- now rewrite E.
        -- now injection E.
      * split; [discriminate | intros [v E]; injection E; congruence].
Qed.

Lemma includes_iff s p : includes s p = true <-> exists u v, s = u ++ p ++ v.
Proof.
  induction s as [|c s IH].
  - cbn [includes]. rewrite orb_false_r, startsWith_iff. split.
    + intros [v E]. now exists EmptyString, v.
    + intros (u & v & E). destruct u; [now exists v | discriminate].
  - cbn [includes]. rewrite orb_true_iff, startsWith_iff, IH. split.
    + intros [[v E] | (u & v & E)].
      * now exists EmptyString, v.
      * exists (String c u), v. now rewrite E.
    + intros (u & v & E). destruct u as [|d u].
      * left. now exists v.
      * right. exists u, v. now injection E.
Qed.

Lemma app_assoc_string (a b c : string) : (a ++ b) ++ c = a ++ b ++ c.
Proof.
  induction a as [|x a IH]; [reflexivity|].
  change (String x (((a ++ b) ++ c)) = String x (a ++ b ++ c)). now rewrite IH.
Qed.

Lemma includes_app_l s a b : includes s (a ++ b) = true -> includes s a = true.
Proof.
  rewrite !includes_iff. intros (u & v & ->).
  exists u, (b ++ v). now rewrite app_assoc_string.
Qed.

Lemma includes_app_r s a b : includes s (a ++ b) = true -> includes s b = true.
Proof.
  rewrite !includes_iff. intros (u & v & ->).
  exists (u ++ a), v. now rewrite !app_assoc_string.
Qed.

(** [subsequence] does not mind more text in front of [s] or fewer
    characters asked for. *)
Lemma subsequence_skip_from_tail s :
  (forall c t, subsequence (String c t) s = true -> subsequence t s = true) ->
  forall t d, subsequence t s = true -> subsequence t (String d s) = true.
Proof.
  intros A t d H. destruct t as [|c t]; [reflexivity|].
  cbn [subsequence]. destruct (Ascii.eqb c d); [now apply (A c) | exact H].
Qed.

Lemma subsequence_tail s :
  forall c t, subsequence (String c t) s = true -> subsequence t s = true.
Proof.
  induction s as [|d s IH]; intros c t; [discriminate|].
  cbn [subsequence]. destruct (Ascii.eqb c d); intros H;
    apply (subsequence_skip_from_tail s IH); [exact H | now apply (IH c)].
Qed.

Lemma like_any p s :
  like (String "%" p) s =
  like p s || match s with String _ s' => like (String "%" p) s' | EmptyString => false end.
Proof. destruct s; reflexivity. Qed.

Lemma like_char c p s :
  is_wildcard c = false ->
  like (String c p) s =
  match s with String d s' => Ascii.eqb c d && like p s' | EmptyString => false end.
Proof.
  unfold is_wildcard. intros H.
  apply orb_false_elim in H. destruct H as [H _].
  apply orb_false_elim in H. destruct H as [H B].
  apply orb_false_elim in H. destruct H as [P U].
  cbn [like]. now rewrite P, U, B.
Qed.

Lemma like_percent s : like "%" s = true.
Proof.
  induction s as [|c s IH]; rewrite like_any; [reflexivity|].
  rewrite IH. apply orb_true_r.
Qed.

(** The pattern of a term between, before and after whose characters
    anything may stand. *)
Lemma like_spread_is_subsequence t :
  plain t = true ->
  forall s, like (spread t) s = subsequence t s.
Proof.
  induction t as [|c t IH]; intros Hp s.
  - cbn [spread]. rewrite like_percent. now destruct s.
  - cbn [plain] in Hp. apply andb_true_iff in Hp. destruct Hp as [Hc Hp].
    apply negb_true_iff in Hc. specialize (IH Hp).
    cbn [spread]. induction s as [|d s IHs].
    + rewrite like_any, like_char by exact Hc. reflexivity.
    + rewrite like_any, like_char by exact Hc. rewrite IHs, IH.
      cbn [subsequence]. destruct (Ascii.eqb c d); cbn [andb orb]; [|reflexivity].
      destruct (subsequence t s) eqn:E; [reflexivity|].
      cbn [orb]. destruct (subsequence (String c t) s) eqn:F; [|reflexivity].
      apply subsequence_tail in F. congruence.
Qed.

End StringFacts.

(** ** The search pattern of the master-data pages *)

Section FuzzySearch.

Import Stdlib.Strings.Ascii.
Import Str MasterData.

Local Open Scope string_scope.

Lemma join_chars_spread c t :
  "%" ++ join_chars "%" (String c t) ++ "%" = spread (String c t).
Proof.
  revert c. induction t as [|d t IH]; intros c; [reflexivity|].
  change ("%" ++ join_chars "%" (String c (String d t)) ++ "%")
    with (String "%" (String c ("%" ++ join_chars "%" (String d t) ++ "%"))).
  now rewrite IH.
Qed.

(** X5: the pattern sent for a search term whose lower-cased form has no
    character with a meaning in [LIKE] matches exactly the texts in which
    the characters of that form occur in order, with anything before,
    between and after them. *)
Theorem fuzzySearchPattern_matches_subsequences
    (toLowerCase : string -> string) (searchTerm s : string) :
  plain (toLowerCase searchTerm) = true ->
  like (fuzzySearchPattern toLowerCase searchTerm) s
  = subsequence (toLowerCase searchTerm) s.
Proof.
  intros Hp. unfold fuzzySearchPattern.
  destruct (toLowerCase searchTerm) as [|c t] eqn:E.
  - change ("%" ++ join_chars "%" "" ++ "%") with "%%".
    rewrite like_any, like_percent. now destruct s.
  - rewrite join_chars_spread. now apply like_spread_is_subsequence.
Qed.

Lemma fuzzySearchPattern_witness :
  Str.like (MasterData.fuzzySearchPattern (fun s => s) "pcm") "paracetamol" = true.
Proof.
  exact (fuzzySearchPattern_matches_subsequences (fun s => s) "pcm" "paracetamol"
           eq_refl).
Defined.

End FuzzySearch.

(** ** Item codes *)

Section ItemCodes.

Import Stdlib.Strings.Ascii.
Import Str AddItem ItemForm.

Local Open Scope string_scope.

(** X6: the first code of a prefix ends in ["01"], and the code made after
    the highest code found, when that is the prefix followed by a number
    written in decimal, is the prefix followed by the next number, padded
    with a zero to two digits. *)
Theorem generatedCode_counts_on
    (codePrefix : string) (n : Z) (others : list string) :
  (0 <= n < 2 ^ 53 - 1)%Z ->
  generatedCode codePrefix (Some ((codePrefix ++ decimal n) :: others))
  = codePrefix ++ padStart0 2 (decimal (n + 1)) /\
  generatedCode codePrefix (Some []) = codePrefix ++ "01" /\
  generatedCode codePrefix None = codePrefix ++ "01".
Proof.
  intros [Hn _]. repeat split.
  unfold generatedCode. now rewrite drop_length_app, parseInt_decimal.
Qed.

Lemma generatedCode_counts_on_witness :
  ItemForm.generatedCode "BTAN" (Some ["BTAN07"; "BTAN03"]) = "BTAN08".
Proof.
  refine (proj1 (generatedCode_counts_on "BTAN" 7 ["BTAN03"] _)).
  split; [discriminate | reflexivity].
Defined.

(** X7: whatever the backend returned, the code made is the prefix followed
    by at least two characters. *)
Theorem generatedCode_shape (codePrefix : string) (data : option (list string)) :
  exists sequenceStr,
    generatedCode codePrefix data = codePrefix ++ sequenceStr /\
    (2 <= String.length sequenceStr)%nat.
Proof.
  unfold generatedCode. eexists. split; [reflexivity|].
  rewrite length_padStart0. lia.
Qed.

Lemma ascii_compare_refl c : Ascii.compare c c = Eq.
Proof.
  pose proof (Ascii.compare_antisym c c) as A.
  destruct (Ascii.compare c c); [reflexivity | discriminate | discriminate].
Qed.

Lemma ltb_common_prefix p a b :
  String.ltb a b = true -> String.ltb (p ++ a) (p ++ b) = true.
Proof.
  intros H. unfold String.ltb in *.
  induction p as [|c p IH]; [exact H|].
  change (String c p ++ a) with (String c (p ++ a)).
  change (String c p ++ b) with (String c (p ++ b)).
  cbn [String.compare]. now rewrite ascii_compare_refl.
Qed.

(** X8: the codes of a prefix run out at 99 in the order of their
    characters: there the prefix followed by 100 is below the prefix
    followed by 99, and when 99 is the highest code found the code made is
    the one with 100, although the codes found already hold it. *)
Theorem generatedCode_repeats_after_99 (codePrefix : string) (others : list string) :
  In (codePrefix ++ "100") others ->
  String.ltb (codePrefix ++ "100") (codePrefix ++ "99") = true /\
  In (generatedCode codePrefix (Some ((codePrefix ++ "99") :: others)))
     ((codePrefix ++ "99") :: others).
Proof.
  intros H. split.
  - now apply ltb_common_prefix.
  - right. unfold generatedCode.
    change "99" with (decimal 99).
    rewrite drop_length_app, parseInt_decimal by discriminate.
    exact H.
Qed.

Lemma generatedCode_repeats_witness :
  In (ItemForm.generatedCode "BTAN" (Some ["BTAN99"; "BTAN100"; "BTAN98"]))
     ["BTAN99"; "BTAN100"; "BTAN98"].
Proof.
  refine (proj2 (generatedCode_repeats_after_99 "BTAN" ["BTAN100"; "BTAN98"] _)).
  left. reflexivity.
Defined.

(** X9: a type whose lower-cased name holds "bebas terbatas" gets the code
    "T": the first test, for "bebas" without "terbatas", does not take it. *)
Theorem generateTypeCode_limited
    (toLowerCase toUpperCase : string -> string)
    (typeId : string) (types : list UnitData.t) (selectedType : UnitData.t) :
  find (fun type => String.eqb (UnitData.id type) typeId) types = Some selectedType ->
  includes (toLowerCase (UnitData.name selectedType)) "bebas terbatas" = true ->
  generateTypeCode toLowerCase toUpperCase typeId types = "T".
Proof.
  intros F H. unfold generateTypeCode. rewrite F. cbv zeta.
  rewrite (includes_app_r _ "bebas " "terbatas" H), H.
  now rewrite andb_false_r.
Qed.

Lemma generateTypeCode_limited_witness :
  ItemForm.generateTypeCode (fun s => s) (fun s => s) "t2"
    [UnitData.mk "t1" "obat keras"; UnitData.mk "t2" "obat bebas terbatas"] = "T".
Proof.
  apply (generateTypeCode_limited (fun s => s) (fun s => s) "t2" _
           (UnitData.mk "t2" "obat bebas terbatas")); reflexivity.
Defined.

(** X10: a category code is never empty, given that upper-casing does not
    empty a text. *)
Theorem generateCategoryCode_not_empty
    (toLowerCase toUpperCase : string -> string)
    (categoryId : string) (categories : list UnitData.t) :
  (forall s, s <> "" -> toUpperCase s <> "") ->
  generateCategoryCode toLowerCase toUpperCase categoryId categories <> "".
Proof.
  intros U. unfold generateCategoryCode.
  destruct (find _ categories) as [selectedCategory|]; [|discriminate].
  cbv zeta. set (name := UnitData.name selectedCategory).
  destruct (startsWith (toLowerCase name) "anti").
  - destruct (Nat.ltb 0 _); discriminate.
  - destruct (Nat.leb 2 (String.length name)) eqn:L.
    + apply U. destruct name as [|c [|d name]]; discriminate.
    + destruct (Nat.eqb (String.length name) 1); [|discriminate].
      destruct (toUpperCase name); discriminate.
Qed.

Lemma generateCategoryCode_not_empty_witness :
  String.eqb
    (ItemForm.generateCategoryCode (fun s => s) (fun s => s) "c1"
       [UnitData.mk "c1" "vitamin"]) "" = false.
Proof.
  apply String.eqb_neq.
  apply (generateCategoryCode_not_empty (fun s => s) (fun s => s) "c1"
           [UnitData.mk "c1" "vitamin"]).
  intros s H. exact H.
Defined.

End ItemCodes.

(** ** Saving an item: what always happens *)

Section SaveItemAlways.

Import JS Effects AddItem.

Local Open Scope list_scope.

(** X11: in either mode and whatever the backend answers, [handleSubmit]
    returns normally, sends exactly one request, and ends by setting
    [saving] back to false; it either closes the form without an alert, or
    shows one alert and leaves the form open. *)
Theorem handleSubmit_always_settles
    itemId refetchItems isEditMode formData baseUnit conversions
    (w : World Request unit) :
  let result :=
    handleSubmit itemId refetchItems isEditMode formData baseUnit conversions w in
  fst result = Ok tt /\
  exists events,
    log (snd result) = log w ++ events /\
    calls events = 1%nat /\
    last events = Some (Ui "setSaving(false)") /\
    ((alerts events = 0%nat /\ In (Ui "onClose()") events) \/
     (alerts events = 1%nat /\ ~ In (Ui "onClose()") events)).
Proof.
  cbv zeta. destruct w as [st outs lg].
  unfold handleSubmit, submitItem. run.
  destruct isEditMode; run;
    destruct outs as [|[| |e|e] rest]; destruct refetchItems; run;
    rewrite <- ?app_assoc; cbn [app fst snd log];
    (split; [reflexivity|]); eexists;
    (split; [reflexivity|]);
    (split; [reflexivity|]);
    (split; [reflexivity|]);
    cbn; intuition discriminate.
Qed.

(** X24: in edit mode [handleSubmit] sends one request, the update of the
    row of [itemId] with [itemUpdateData], and that object has no [stock]
    key: an edit never writes the stock. *)
Theorem edited_item_keeps_stock
    itemId refetchItems formData baseUnit conversions (w : World Request unit) :
  ItemPayload.stock (itemUpdateData formData baseUnit conversions) = None /\
  exists events,
    log (snd (handleSubmit itemId refetchItems true formData baseUnit conversions w))
      = log w ++ events /\
    List.filter is_call events
      = [Call (UpdateItem itemId (itemUpdateData formData baseUnit conversions))].
Proof.
  split; [reflexivity|].
  destruct w as [st outs lg].
  unfold handleSubmit, submitItem. run.
  destruct outs as [|[| |e|e] rest]; destruct refetchItems; run;
    rewrite <- ?app_assoc; cbn [app];
    eexists; (split; [reflexivity | reflexivity]).
Qed.

End SaveItemAlways.

(** ** The form of an item, loaded and saved *)

Section ItemFormFacts.

Import JS AddItem ItemForm.

Local Open Scope float_scope.

Lemma is_nan_spec x : is_nan x = negb (SFeqb (Prim2SF x) (Prim2SF x)).
Proof. unfold is_nan. now rewrite FloatAxioms.eqb_spec. Qed.

Lemma is_zero_spec x : is_zero x = SFeqb (Prim2SF x) (S754_zero false).
Proof. unfold is_zero. now rewrite FloatAxioms.eqb_spec. Qed.

Lemma is_infinity_spec x :
  is_infinity x = SFeqb (SFabs (Prim2SF x)) (S754_infinity false).
Proof. unfold is_infinity. now rewrite FloatAxioms.eqb_spec, FloatAxioms.abs_spec. Qed.

Lemma SFeqb_finite_refl s m e :
  SFeqb (S754_finite s m e) (S754_finite s m e) = true.
Proof. apply Binary64Facts.SFeqb_refl. discriminate. Qed.

Lemma json_number_finite x :
  finite_nonzero x = true -> json_number x = Some x /\ truthy x = true.
Proof.
  unfold finite_nonzero, json_number, truthy.
  rewrite is_nan_spec, is_zero_spec, is_infinity_spec.
  destruct (Prim2SF x) as [| | |s m e]; try discriminate. intros _.
  rewrite SFeqb_finite_refl.
  destruct s; cbn; split; reflexivity.
Qed.

Lemma json_number_storable x :
  storable x = true -> nullable_or_zero (json_number x) = x.
Proof.
  unfold storable. destruct (Prim2SF x) as [[|]| | |s m e] eqn:E; try discriminate; intros _.
  - assert (Z : x = 0).
    { apply Prim2SF_inj. now rewrite E. }
    subst x. reflexivity.
  - assert (F : finite_nonzero x = true) by (unfold finite_nonzero; now rewrite E).
    destruct (json_number_finite x F) as [-> T].
    cbn [nullable_or_zero]. unfold or_zero. now rewrite T.
Qed.

Lemma nullable_or_empty_string_or_null s :
  nullable_or_empty (string_or_null s) = s.
Proof.
  unfold string_or_null. destruct (String.eqb_spec s ""); [now subst | reflexivity].
Qed.

(** X12: a form saved in edit mode and loaded again from the stored row is
    the same form with the row's time stamp, when its two prices are finite
    and not [-0] and its minimum stock is finite and not zero. *)
Theorem saved_form_loads_back
    (formData : FormData.t) (baseUnit : string)
    (conversions : list UnitConversion.t) (updated_at : option string) :
  storable (FormData.base_price formData) = true ->
  storable (FormData.sell_price formData) = true ->
  finite_nonzero (FormData.min_stock formData) = true ->
  fetchedFormData (stored_row (itemUpdateData formData baseUnit conversions) updated_at)
  = stamped updated_at formData.
Proof.
  intros B S M.
  unfold fetchedFormData, stored_row, itemUpdateData, itemPayload, stamped.
  cbn [ItemRow.code ItemRow.name ItemRow.type_id ItemRow.category_id ItemRow.unit_id
       ItemRow.rack ItemRow.barcode ItemRow.description ItemRow.base_price
       ItemRow.sell_price ItemRow.min_stock ItemRow.is_active ItemRow.is_medicine
       ItemRow.has_expiry_date ItemRow.updated_at
       ItemPayload.code ItemPayload.name ItemPayload.type_id ItemPayload.category_id
       ItemPayload.unit_id ItemPayload.rack ItemPayload.barcode ItemPayload.description
       ItemPayload.base_price ItemPayload.sell_price ItemPayload.min_stock
       ItemPayload.is_active ItemPayload.is_medicine ItemPayload.has_expiry_date
       nullable_or_empty defined_or].
  rewrite !nullable_or_empty_string_or_null.
  rewrite (json_number_storable _ B), (json_number_storable _ S).
  destruct (json_number_finite _ M) as [-> T].
  unfold nullable_or_ten. rewrite T. reflexivity.
Qed.

Lemma saved_form_loads_back_witness :
  ItemForm.fetchedFormData
    (ItemForm.stored_row
       (AddItem.itemUpdateData Samples.paracetamol "Strip" []) (Some "2025-06-28"))
  = ItemForm.stamped (Some "2025-06-28") Samples.paracetamol.
Proof.
  apply (saved_form_loads_back Samples.paracetamol "Strip" [] (Some "2025-06-28"));
    reflexivity.
Defined.

(** X13: a stored minimum stock that is falsy (zero, or not a number) loads
    as 10, and an edit saved without touching it writes 10 over it. *)
Theorem falsy_min_stock_becomes_ten
    (itemData : ItemRow.t) (x : number) (baseUnit : string)
    (conversions : list UnitConversion.t) :
  ItemRow.min_stock itemData = Some x ->
  truthy x = false ->
  FormData.min_stock (fetchedFormData itemData) = 10 /\
  ItemPayload.min_stock (itemUpdateData (fetchedFormData itemData) baseUnit conversions)
  = 10.
Proof.
  intros E T.
  assert (F : FormData.min_stock (fetchedFormData itemData) = 10).
  { unfold fetchedFormData. cbn [FormData.min_stock]. rewrite E.
    unfold nullable_or_ten. now rewrite T. }
  split; [exact F|]. exact F.
Qed.

Lemma falsy_min_stock_witness :
  AddItem.ItemPayload.min_stock
    (AddItem.itemUpdateData (ItemForm.fetchedFormData MoreSamples.no_minimum) "Strip" [])
  = 10%float.
Proof.
  exact (proj2 (falsy_min_stock_becomes_ten MoreSamples.no_minimum 0%float "Strip" []
                  eq_refl eq_refl)).
Defined.

(** X14: the profit of an item sold at its base price is zero percent, for
    every positive finite price. *)
Theorem calculateProfitPercentage_at_cost
    (formData : FormData.t) (price : number) :
  (0 <? price) = true ->
  (price <? infinity) = true ->
  calculateProfitPercentage formData (Some price) (Some price) = Some 0.
Proof.
  intros P F. unfold calculateProfitPercentage. rewrite P.
  rewrite FloatAxioms.ltb_spec in P, F.
  assert (L : (0 <=? price) = true).
  { rewrite FloatAxioms.leb_spec.
    change (Prim2SF 0) with (S754_zero false) in *.
    destruct (Prim2SF price) as [s|[|]| |[|] m e]; try discriminate; reflexivity. }
  rewrite L. cbn [andb]. f_equal.
  apply Prim2SF_inj.
  rewrite FloatAxioms.mul_spec, FloatAxioms.div_spec, FloatAxioms.sub_spec.
  change (Prim2SF 0) with (S754_zero false) in *.
  change (Prim2SF infinity) with (S754_infinity false) in F.
  destruct (Prim2SF price) as [s|[|]| |[|] m e] eqn:E; try discriminate.
  assert (Z : SF64sub (S754_finite false m e) (S754_finite false m e) = S754_zero false).
  { unfold SF64sub, SFsub. cbn [cond_Zopp].
    rewrite Z.sub_diag, Z.min_id. reflexivity. }
  rewrite Z. reflexivity.
Qed.

Lemma calculateProfitPercentage_at_cost_witness :
  ItemForm.calculateProfitPercentage Samples.paracetamol (Some 1250%float)
    (Some 1250%float) = Some 0%float.
Proof.
  apply (calculateProfitPercentage_at_cost Samples.paracetamol 1250%float); reflexivity.
Defined.

End ItemFormFacts.

(** ** Unit prices in the list of items *)

Section ListedPrices.

Import JS AddItem ItemList.

Local Open Scope float_scope.

(** X15: the list of items reads the prices of a conversion under the keys
    [basePrice] and [sellPrice], which the form does not write: every
    conversion of an item saved by [handleSubmit], in either mode, is
    listed with both prices zero, whatever prices were saved, and with the
    unit name that was saved. *)
Theorem listed_conversion_prices_are_zero
    (stock : option number) (formData : FormData.t) (baseUnit : string)
    (conversions : list UnitConversion.t)
    (allUnitsForConversion : list UnitData.t) (generatedId : string) :
  Forall
    (fun saved =>
       let listed := mappedConversion allUnitsForConversion generatedId
                       (raw_of_saved saved) in
       basePrice listed = 0 /\ sellPrice listed = 0 /\
       unit_name listed = Some (SavedConversion.unit_name saved))
    (ItemPayload.unit_conversions (itemPayload stock formData baseUnit conversions)).
Proof.
  apply Forall_forall. intros saved _. cbv zeta. repeat split.
Qed.

End ListedPrices.

(** ** The add/edit modal *)

Section ModalSave.

Import Effects MasterData AddEditModal.

Local Open Scope list_scope.



(** X17: saving the modal opened on an entry sends one update of that
    entry's id with the name and description typed; when it is served, the
    edit modal is closed, no entry is being edited any more, and nothing
    else of the page's state changes. *)
Theorem handleSave_updates_edited_entry
    (trim toLowerCase : string -> string) (entityName tableName label : string)
    (item : MasterDataItem) (name description : string)
    (s : State) (lg : list (Event Request)) :
  trim name <> ""%string ->
  id item <> ""%string ->
  handleSave trim toLowerCase entityName (handleModalSubmit tableName label)
    (Some item) name description (mkWorld s [] lg)
  = (Ok tt,
     mkWorld (setEditingItem None (setIsEditModalOpen false s)) []
       (lg ++ [Call (Update tableName (id item) name (Some description));
               Ui "invalidateQueries"])).
Proof.
  intros N I. unfold handleSave.
  destruct (String.eqb_spec (trim name) ""); [contradiction|].
  unfold handleModalSubmit. cbn [modal_id].
  destruct (String.eqb_spec (id item) ""); [contradiction|].
  unfold mutateAsync, updateMutation. cbn [mutationFn onSuccess onError].
  unfold throw_if_error. run.
  rewrite <- ?app_assoc. reflexivity.
Qed.

Lemma handleSave_updates_witness :
  AddEditModal.handleSave (fun s => s) (fun s => s) "Kategori"
    (MasterData.handleModalSubmit "item_categories" "kategori item")
    (Some (MasterData.mkMasterDataItem "c1" "Analgesik" None))
    "Analgetik" "Pereda nyeri"
    (Effects.mkWorld
       (MasterData.handleEdit (MasterData.mkMasterDataItem "c1" "Analgesik" None)
          MasterData.initialState) [] [])
  = (Effects.Ok tt,
     Effects.mkWorld MasterData.initialState []
       [Effects.Call
          (MasterData.Update "item_categories" "c1" "Analgetik" (Some "Pereda nyeri"));
        Effects.Ui "invalidateQueries"]).
Proof.
  apply (handleSave_updates_edited_entry (fun s => s) (fun s => s) "Kategori"
           "item_categories" "kategori item"
           (MasterData.mkMasterDataItem "c1" "Analgesik" None)
           "Analgetik" "Pereda nyeri"
           (MasterData.handleEdit (MasterData.mkMasterDataItem "c1" "Analgesik" None)
              MasterData.initialState) []); discriminate.
Defined.

(** X18: when the backend fails the request of a save from the modal, the
    alert of the mutation is shown and [handleSave] itself throws the
    error: nothing between the button and the mutation catches it.  The
    state of the page, and with it the open modal, stays as it was. *)
Theorem handleSave_failure_escapes
    (trim toLowerCase : string -> string) (entityName tableName label : string)
    (initialData : option MasterDataItem) (name description : string)
    (rejected : bool) (e : Error)
    (s : State) (rest : list Outcome) (lg : list (Event Request)) :
  trim name <> ""%string ->
  exists req msg,
    handleSave trim toLowerCase entityName (handleModalSubmit tableName label)
      initialData name description (mkWorld s (failure rejected e :: rest) lg)
    = (Throw e, mkWorld s rest (lg ++ [Call req; Alert msg])).
Proof.
  intros N. unfold handleSave.
  destruct (String.eqb_spec (trim name) ""); [contradiction|].
  unfold handleModalSubmit, failure. cbn [modal_id].
  destruct initialData as [item|];
    [destruct (String.eqb (id item) "")|];
    unfold mutateAsync, addMutation, updateMutation;
    cbn [mutationFn onSuccess onError]; unfold throw_if_error;
    destruct rejected; run; rewrite <- ?app_assoc; cbn [app];
    eexists; eexists; reflexivity.
Qed.

Lemma handleSave_failure_witness :
  exists req msg,
    AddEditModal.handleSave (fun s => s) (fun s => s) "Kategori"
      (MasterData.handleModalSubmit "item_categories" "kategori item") None
      "Analgesik" ""
      (Effects.mkWorld MasterData.initialState
         [Effects.failure false "duplicate key"] [])
    = (Effects.Throw "duplicate key",
       Effects.mkWorld MasterData.initialState [] ([] ++ [Effects.Call req; Effects.Alert msg])).
Proof.
  apply (handleSave_failure_escapes (fun s => s) (fun s => s) "Kategori"
           "item_categories" "kategori item" None "Analgesik" "" false
           "duplicate key" MasterData.initialState [] []).
  discriminate.
Defined.

End ModalSave.

(** ** A category, type or unit added from the item form *)

Section NewEntitySave.

Import Effects NewEntity.

Local Open Scope list_scope.

Variable inserted : Kind -> list Row -> string -> string -> Row.
Variable order_by_name : list Row -> list Row.

Lemma set_at_same {A} k (v : A) f : set_at k v f k = v.
Proof. unfold set_at. now destruct k. Qed.

Lemma set_at_other {A} k k' (v : A) f : k <> k' -> set_at k v f k' = f k'.
Proof. unfold set_at. destruct k, k'; cbn; congruence. Qed.

(** X19: when both calls are served and the new row has an id, the row is
    stored, the kind's list is replaced by the table read again in name
    order, the new id is selected in the form, the modal is closed and the
    search term cleared, with no alert; the other two kinds keep their
    list, selection and modal. *)
Theorem handleSave_selects_new_row
    (k : Kind) (data : string * string) (s : Store) :
  let row := inserted k (table s k) (fst data) (snd data) in
  let result := handleSave inserted order_by_name k data (mkWorld s [] []) in
  let s' := store (snd result) in
  id row <> ""%string ->
  fst result = Ok tt /\
  log (snd result) =
    [Call (Insert k (fst data) (snd data));
     Ui ("invalidateQueries(" ++ query_key k ++ ")")%string;
     Call (SelectAll k)] /\
  table s' k = table s k ++ [row] /\
  listed s' k = order_by_name (table s k ++ [row]) /\
  selected s' k = id row /\
  modalOpen s' k = false /\
  currentSearchTermForModal s' = None /\
  (forall k', k <> k' ->
     table s' k' = table s k' /\ listed s' k' = listed s k' /\
     selected s' k' = selected s k' /\ modalOpen s' k' = modalOpen s k').
Proof.
  cbv zeta. intros I.
  unfold handleSave, add_mutateAsync, insert_entity, select_all. run.
  destruct (String.eqb_spec (id (inserted k (table s k) (fst data) (snd data))) "");
    [contradiction|].
  cbn [fst snd store log table listed selected modalOpen currentSearchTermForModal].
  rewrite !set_at_same.
  repeat split; auto using set_at_other.
Qed.

(** X20: when the insert fails, refused or rejected, nothing is stored or
    changed in the form, the error is logged to the console, the alert of
    the kind is shown once, no list is read again, and [handleSave] returns
    normally with the modal still open. *)
Theorem handleSave_insert_failure
    (k : Kind) (data : string * string) (s : Store)
    (rejected : bool) (e : Error) (rest : list Outcome)
    (lg : list (Event Request)) :
  handleSave inserted order_by_name k data (mkWorld s (failure rejected e :: rest) lg)
  = (Ok tt,
     mkWorld s rest
       (lg ++ [Call (Insert k (fst data) (snd data));
               ConsoleError (console_label k);
               Alert (alert_message k)])).
Proof.
  unfold handleSave, add_mutateAsync, insert_entity, failure.
  destruct rejected; run; rewrite <- ?app_assoc; reflexivity.
Qed.


(** X22: when the insert is served but the read of the list is refused,
    no alert is shown: the new id is selected and the modal closed, while
    the kind's list stays as it was, without the new row. *)
Theorem handleSave_keeps_stale_list
    (k : Kind) (data : string * string) (s : Store) (e : Error) :
  let row := inserted k (table s k) (fst data) (snd data) in
  let result :=
    handleSave inserted order_by_name k data (mkWorld s [Served; Refused e] []) in
  let s' := store (snd result) in
  id row <> ""%string ->
  fst result = Ok tt /\
  alerts (log (snd result)) = 0%nat /\
  table s' k = table s k ++ [row] /\
  listed s' = listed s /\
  selected s' k = id row /\
  modalOpen s' k = false.
Proof.
  cbv zeta. intros I.
  unfold handleSave, add_mutateAsync, insert_entity, select_all. run.
  destruct (String.eqb_spec (id (inserted k (table s k) (fst data) (snd data))) "");
    [contradiction|].
  cbn [fst snd store log table listed selected modalOpen currentSearchTermForModal].
  rewrite !set_at_same. repeat split.
Qed.

End NewEntitySave.

Lemma handleSave_selects_new_row_witness :
  NewEntity.selected
    (Effects.store
       (snd (NewEntity.handleSave MoreSamples.inserted_row (fun rows => rows)
               NewEntity.Unit ("Botol", "") (Effects.mkWorld MoreSamples.empty_form [] []))))
    NewEntity.Unit = "id-Botol".
Proof.
  refine (proj1 (proj2 (proj2 (proj2 (proj2
            (handleSave_selects_new_row MoreSamples.inserted_row (fun rows => rows)
               NewEntity.Unit ("Botol", "") MoreSamples.empty_form _)))))).
  discriminate.
Defined.

Lemma handleSave_keeps_stale_list_witness :
  NewEntity.listed
    (Effects.store
       (snd (NewEntity.handleSave MoreSamples.inserted_row (fun rows => rows)
               NewEntity.Unit ("Botol", "")
               (Effects.mkWorld MoreSamples.empty_form
                  [Effects.Served; Effects.Refused "timeout"] []))))
  = NewEntity.listed MoreSamples.empty_form.
Proof.
  refine (proj1 (proj2 (proj2 (proj2
            (handleSave_keeps_stale_list MoreSamples.inserted_row (fun rows => rows)
               NewEntity.Unit ("Botol", "") MoreSamples.empty_form "timeout" _))))).
  discriminate.
Defined.

(** ** The pages of a list, taken together *)

Section AllPages.

Import JS MasterData.

Context {Row : Type}.
Variable toLowerCase : string -> string.
Variable row_matches : string -> Row -> bool.
Variable order_by_name : list Row -> list Row.
Variable completeItem : Row -> Row.

Lemma firstn_plus (a b : nat) (l : list Row) :
  firstn (a + b) l = (firstn a l ++ firstn b (skipn a l))%list.
Proof.
  revert l. induction a as [|a IH]; intros l; [reflexivity|].
  destruct l as [|x l]; cbn [Nat.add firstn skipn app].
  - now rewrite firstn_nil.
  - now rewrite IH.
Qed.

Lemma concat_windows (L : nat) (l : list Row) (k : nat) :
  concat (map (fun i => firstn L (skipn (i * L) l)) (seq 0 k)) = firstn (k * L) l.
Proof.
  induction k as [|k IH]; [reflexivity|].
  rewrite seq_S, map_app, concat_app, IH. cbn [Nat.add map concat].
  rewrite app_nil_r. cbn [Nat.mul].
  rewrite (Nat.add_comm L (k * L)). now rewrite firstn_plus.
Qed.

Lemma range_of_page (limit : Z) (i : nat) (l : list Row) :
  (1 <= limit)%Z ->
  (let (from, to) := window (Z.of_nat (S i)) limit in range from to l)
  = firstn (Z.to_nat limit) (skipn (i * Z.to_nat limit) l).
Proof.
  intros H. unfold window, range.
  replace ((Z.of_nat (S i) - 1) * limit + limit - 1
           - (Z.of_nat (S i) - 1) * limit + 1)%Z with limit by lia.
  replace (Z.to_nat ((Z.of_nat (S i) - 1) * limit)) with (i * Z.to_nat limit)%nat
    by nia.
  reflexivity.
Qed.

(** X23: the pages 1 to [totalPages] of a search, one after the other, are
    the matching rows in name order, each once (completed, for the table of
    items), for every page size of at least one; the backend's ordering is
    taken to keep the number of rows. *)
Theorem pages_cover_matching_rows
    (tableName : string) (rows : list Row) (searchTerm : string) (limit : Z) :
  (1 <= limit)%Z ->
  let found := matching toLowerCase row_matches searchTerm rows in
  let fetch page :=
    fetchData toLowerCase row_matches order_by_name completeItem
      tableName rows page searchTerm limit in
  length (order_by_name found) = length found ->
  concat (map (fun p => fst (fetch (Z.of_nat p)))
            (seq 1 (Z.to_nat (totalPages (snd (fetch 1%Z)) limit))))
  = (if String.eqb tableName "items" then map completeItem else fun l => l)
      (order_by_name found).
Proof.
  intros Hl. cbv beta zeta. intros Hlen.
  set (found := matching toLowerCase row_matches searchTerm rows) in *.
  assert (Hs : snd (fetchData toLowerCase row_matches order_by_name completeItem
                      tableName rows 1 searchTerm limit)
               = Z.of_nat (length found)).
  { unfold fetchData, window. fold found.
    destruct (String.eqb tableName "items"); reflexivity. }
  rewrite Hs.
  set (k := Z.to_nat (totalPages (Z.of_nat (length found)) limit)).
  assert (Hk : (length (order_by_name found) <= k * Z.to_nat limit)%nat).
  { pose proof (Math_ceil_div_spec (Z.of_nat (length found)) limit ltac:(lia)) as S.
    rewrite Hlen. unfold k, totalPages. nia. }
  rewrite <- seq_shift, map_map.
  assert (E : forall i,
             fst (fetchData toLowerCase row_matches order_by_name completeItem
                    tableName rows (Z.of_nat (S i)) searchTerm limit)
             = (if String.eqb tableName "items" then map completeItem else fun l => l)
                 (firstn (Z.to_nat limit)
                    (skipn (i * Z.to_nat limit) (order_by_name found)))).
  { intros i. unfold fetchData. fold found.
    pose proof (range_of_page limit i (order_by_name found) Hl) as R.
    destruct (window (Z.of_nat (S i)) limit) as [from to].
    rewrite <- R. destruct (String.eqb tableName "items"); reflexivity. }
  rewrite (map_ext _ _ E).
  destruct (String.eqb tableName "items").
  - rewrite <- (map_map (fun i => firstn (Z.to_nat limit)
                                   (skipn (i * Z.to_nat limit) (order_by_name found)))
                 (map completeItem)).
    rewrite <- concat_map, concat_windows. now rewrite firstn_all2.
  - rewrite concat_windows. now rewrite firstn_all2.
Qed.

End AllPages.

Lemma pages_cover_matching_rows_witness :
  concat
    (map (fun p =>
            fst (MasterData.fetchData (fun s => s) (fun _ _ => true)
                   (fun l => l) (fun r => r) "item_units"
                   ["Botol"; "Box"; "Strip"; "Tablet"; "Tube"] (Z.of_nat p) "" 2))
       (seq 1 3))
  = ["Botol"; "Box"; "Strip"; "Tablet"; "Tube"].
Proof.
  apply (pages_cover_matching_rows (fun s => s) (fun _ _ => true)
           (fun l => l) (fun r => r) "item_units"
           ["Botol"; "Box"; "Strip"; "Tablet"; "Tube"] "" 2).
  - lia.
  - reflexivity.
Defined.
